(** * EDINET bulk acquisition: a shallow embedding of [edinet_api.py]

    The Python class [Edinet] is embedded function by function.  Every
    effect the source performs is explicit:

    - the file system is a finite map from path to contents plus a set of
      directories;
    - [print], the HTTP requests, [time.sleep], reading the key file and
      displaying the credential widget are events of one chronological log;
    - the remote service, the process environment and today's date are an
      immutable [environ];
    - synchronous methods live in a state-and-exception monad [M];
    - the [async def] workers are resumable step machines, and
      [asyncio.gather] is an event loop driven by a schedule that fixes the
      order in which suspended workers are resumed. *)

From Stdlib Require Import ZArith Lia List Bool DecimalString.
From stdpp Require Import base strings gmap list.

Import ListNotations.

(** ** Values *)

Abbreviation bytes := (list Byte.byte).

(** A cell of a [pandas.DataFrame]. *)
Inductive cell :=
| CStr (s : string)
| CNum (z : Z)
| CNaN
| CNone.

(** One record of the listing response, field name to value, and a table of
    them in row order.  Column alignment is left to pandas. *)
Abbreviation row := (list (string * cell)).
Abbreviation table := (list row).

(** The Python values the methods return or store. *)
#[warnings="-register-all"]
Inductive pyval :=
| PyNone
| PyBool (b : bool)
| PyStr (s : string)
| PyEmptyDict
| PyFrame (df : table)
| PyList (l : list pyval).

(** The exceptions the modelled library calls raise. *)
Inductive pyexn :=
| ConnectionError (msg : string)
| JSONDecodeError
| AttributeError
| TypeError
| ValueError
| FileNotFoundError (path : string).

(** The text [f'{e}'] prints for an exception. *)
Definition exn_str (e : pyexn) : string :=
  match e with
  | ConnectionError msg => msg
  | JSONDecodeError => "Expecting value: line 1 column 1 (char 0)"
  | AttributeError => "object has no attribute 'get'"
  | TypeError => "object has no len()"
  | ValueError => "sleep length must be non-negative"
  | FileNotFoundError p => "No such file or directory: " +:+ p
  end.

(** ** The remote service *)

(** What [json.loads] makes of a body, as far as the code looks at it: the
    body is no JSON at all, it is JSON but no object (so [.get] fails), or
    it is an object whose ['results'] entry is a list of records or is
    absent ([None]). *)
Inductive json_view :=
| NotJson
| JsonNonObject
| JsonObject (results : option table).

(** The body of a response: reading it fails, or it arrives in full. *)
Inductive payload :=
| ReadFail (msg : string)
| Payload (content : bytes) (decoded : json_view).

(** The answer to one GET: no response at all (connection failure or
    timeout), or a status line followed by a body. *)
Inductive reply :=
| NetFail (msg : string)
| Response (status : Z) (body : payload).

(** ** The world *)

(** What a file holds: raw bytes, a table written by [to_csv], a document
    written by [json.dump], or a key file, that is a JSON object whose
    ['Subscription-Key'] entry is the given string or is missing. *)
Inductive file_data :=
| FBytes (content : bytes)
| FTsv (df : table)
| FJsonDump (j : json_view)
| FKeyJson (key : option string).

Inductive event :=
| EvGet (at_time : Z) (url : string)
| EvSleep (seconds : Z)
| EvOut (line : string)
| EvErr (line : string)
| EvOpenRead (path : string)
| EvWidget.

Record world := World {
  files : gmap string file_data;
  dirs : gset string;
  log : list event;
  clock : Z
}.

Record environ := Environ {
  getenv : string → option string;
  remote : string → reply;
  today : Z
}.

Definition emit (e : event) (w : world) : world :=
  World (files w) (dirs w) (log w ++ [e]) (clock w).

Definition put_file (path : string) (d : file_data) (w : world) : world :=
  World (<[path := d]> (files w)) (dirs w) (log w) (clock w).

Definition add_dir (path : string) (w : world) : world :=
  World (files w) ({[path]} ∪ dirs w) (log w) (clock w).

Definition advance (seconds : Z) (w : world) : world :=
  World (files w) (dirs w) (log w) (clock w + seconds).

(** ** The state-and-exception monad of the synchronous methods *)

Inductive res (A : Type) :=
| Ok (a : A)
| Raise (e : pyexn).
Arguments Ok {A} a.
Arguments Raise {A} e.

Definition M (A : Type) : Type := world → res A * world.

Definition ret {A} (a : A) : M A := fun w => (Ok a, w).
Definition raise {A} (e : pyexn) : M A := fun w => (Raise e, w).
Definition bind {A B} (c : M A) (k : A → M B) : M B :=
  fun w => match c w with
           | (Ok a, w') => k a w'
           | (Raise e, w') => (Raise e, w')
           end.
Definition effect (f : world → world) : M unit := fun w => (Ok tt, f w).

Notation "'let*' x ':=' c 'in' k" := (bind c (fun x => k))
  (at level 10, x name, c at level 100, k at level 200).
Notation "c ';;' k" := (bind c (fun _ => k))
  (at level 100, k at level 200, right associativity).

(** ** Library calls *)

(** [str(n)] for an integer. *)
Definition str_of_Z (z : Z) : string := NilZero.string_of_int (Z.to_int z).

(** [print(s)] and [print(s, file=sys.stderr)]. *)
Definition print (s : string) : M unit := effect (emit (EvOut s)).
Definition print_err (s : string) : M unit := effect (emit (EvErr s)).

(** [os.path.sep.join([d, name])] and [Path(d) / name]; paths are kept as
    the code spells them, pathlib's normalisation of ["./"] is not applied. *)
Definition path_join (d name : string) : string := d +:+ "/" +:+ name.

(** [Path(d).mkdir(parents=True, exist_ok=True)]. *)
Definition mkdir (d : string) : M unit := effect (add_dir d).

(** [os.path.isdir(d)] and [os.path.isfile(p)]. *)
Definition isdir (d : string) : M bool := fun w => (Ok (bool_decide (d ∈ dirs w)), w).
Definition isfile (p : string) : M bool :=
  fun w => (Ok (bool_decide (is_Some (files w !! p))), w).

(** Writing [name] inside directory [d]: [open] fails when [d] is missing. *)
Definition write_in (d name : string) (data : file_data) : M unit :=
  fun w => if bool_decide (d ∈ dirs w)
           then (Ok tt, put_file (path_join d name) data w)
           else (Raise (FileNotFoundError (path_join d name)), w).

(** Writing a file of the working directory. *)
Definition write_cwd (name : string) (data : file_data) : M unit :=
  effect (put_file name data).

(** [time.sleep(seconds)] blocks the whole process. *)
Definition time_sleep (seconds : Z) : M unit :=
  if (seconds <? 0)%Z then raise ValueError
  else effect (fun w => advance seconds (emit (EvSleep seconds) w)).

(** *** Dates: [datetime.date] as its proleptic Gregorian ordinal *)

Definition civil (ordinal : Z) : Z * Z * Z :=
  let z := (ordinal + 305)%Z in
  let era := (z / 146097)%Z in
  let doe := (z - era * 146097)%Z in
  let yoe := ((doe - doe / 1460 + doe / 36524 - doe / 146096) / 365)%Z in
  let doy := (doe - (365 * yoe + yoe / 4 - yoe / 100))%Z in
  let mp := ((5 * doy + 2) / 153)%Z in
  let d := (doy - (153 * mp + 2) / 5 + 1)%Z in
  let m := if (mp <? 10)%Z then (mp + 3)%Z else (mp - 9)%Z in
  let y := (yoe + era * 400 + (if (m <=? 2)%Z then 1 else 0))%Z in
  (y, m, d).

Fixpoint zeros (n : nat) : string :=
  match n with O => "" | S n' => "0" +:+ zeros n' end.

Definition pad (width : nat) (z : Z) : string :=
  let s := str_of_Z z in zeros (width - String.length s) +:+ s.

(** [d.strftime('%Y-%m-%d')]. *)
Definition strftime (ordinal : Z) : string :=
  let '(y, m, d) := civil ordinal in
  pad 4 y +:+ "-" +:+ pad 2 m +:+ "-" +:+ pad 2 d.

(** ** The class [Edinet] *)

Definition URL : string := "https://api.edinet-fsa.go.jp/api/v2".
Definition TSV_PATH : string := "./tsv".
Definition DOC_PATH : string := "./doc".
Definition DOCTYPE : list (string * Z) := [("xbrl", 1%Z); ("pdf", 2%Z)].

(** [self.subscription_key]: the initial [{}], a string, or the [None] that
    [data.get] yields for a key file without the entry. *)
Inductive credential :=
| KeyUnset
| KeyStr (s : string)
| KeyNone.

(** The object; [self.headers] is [None] throughout and is left out. *)
Record Edinet := MkEdinet {
  subscription_key : credential;
  key_path : option string
}.

(** [f'{self.subscription_key}']. *)
Definition fmt_key (k : credential) : string :=
  match k with
  | KeyUnset => "{}"
  | KeyStr s => s
  | KeyNone => "None"
  end.

Fixpoint stars (n : nat) : string :=
  match n with O => "" | S n' => "*" +:+ stars n' end.

(** [if edinet_api_key:] holds for a variable that is set and not empty. *)
Definition truthy (v : option string) : bool :=
  match v with
  | Some s => negb (String.eqb s "")
  | None => false
  end.

(** [json.load(fr)] followed by [data.get('Subscription-Key')]. *)
Definition load_key (p : string) : M credential := fun w =>
  let w' := emit (EvOpenRead p) w in
  match files w !! p with
  | Some (FKeyJson (Some k)) => (Ok (KeyStr k), w')
  | Some (FKeyJson None) => (Ok KeyNone, w')
  | Some (FJsonDump (JsonObject _)) => (Ok KeyNone, w')
  | Some (FJsonDump JsonNonObject) => (Raise AttributeError, w')
  | Some _ => (Raise JSONDecodeError, w')
  | None => (Raise (FileNotFoundError p), w)
  end.

(** [len(self.subscription_key)] inside the [print] of the key-file branch. *)
Definition key_len (k : credential) : M nat :=
  match k with
  | KeyStr s => ret (String.length s)
  | KeyUnset => ret O
  | KeyNone => raise TypeError
  end.

(** [key_path is not None and os.path.isfile(key_path)]. *)
Definition usable_key_file (key_path : option string) : M bool :=
  match key_path with
  | Some p => isfile p
  | None => ret false
  end.

(** [Edinet.__init__]. *)
Definition init (E : environ) (key_path : option string) : M Edinet :=
  let self := MkEdinet KeyUnset key_path in
  let edinet_api_key := getenv E "EDINET_API_KEY" in
  if truthy edinet_api_key then
    ret (MkEdinet (KeyStr (default "" edinet_api_key)) key_path)
  else
    let* use_file := usable_key_file key_path in
    if use_file then
      let* k := load_key (default "" key_path) in
      let* n := key_len k in
      print ("load subscription key: " +:+ stars n);;
      ret (MkEdinet k key_path)
    else
      effect (emit EvWidget);;
      ret self.

(** The click handler of the widget: the typed value becomes the key. *)
Definition on_button_clicked (self : Edinet) (value : string) : Edinet :=
  MkEdinet (KeyStr value) (key_path self).

(** *** Request targets *)

Definition listing_url (self : Edinet) (date : string) : string :=
  URL +:+ "/documents.json?date=" +:+ date +:+ "&type=2&Subscription-Key="
      +:+ fmt_key (subscription_key self).

Definition document_url (self : Edinet) (doc_id : string) (doc_type : Z) : string :=
  URL +:+ "/documents/" +:+ doc_id +:+ "?type=" +:+ str_of_Z doc_type
      +:+ "&Subscription-Key=" +:+ fmt_key (subscription_key self).

(** *** [requests.get]: one blocking round trip, body read before it returns *)

Record http_response := MkResponse {
  status_code : Z;
  content : bytes;
  decoded : json_view
}.

Definition requests_get (E : environ) (url : string) : M http_response := fun w =>
  let w' := emit (EvGet (clock w) url) w in
  match remote E url with
  | NetFail msg => (Raise (ConnectionError msg), w')
  | Response _ (ReadFail msg) => (Raise (ConnectionError msg), w')
  | Response st (Payload c d) => (Ok (MkResponse st c d), w')
  end.

(** [ret.json()] and [data.get('results')]. *)
Definition ret_json (r : http_response) : M json_view :=
  match decoded r with
  | NotJson => raise JSONDecodeError
  | j => ret j
  end.

Definition get_results (data : json_view) : M (option table) :=
  match data with
  | JsonObject results => ret results
  | _ => raise AttributeError
  end.

(** [df.replace({np.nan: None})]. *)
Definition replace_nan (df : table) : table :=
  map (map (fun kv : string * cell =>
              match kv.2 with CNaN => (kv.1, CNone) | _ => kv end)) df.

(** *** [get_doc_json] *)

Definition listing_file (date : string) : string :=
  "document_list_" +:+ date +:+ ".tsv.gz".

(** Lines 99 to 115, reached from the first and the last branch of the
    status test. *)
Definition get_doc_json_rest (r : http_response) (date : string) : M pyval :=
  let* data := ret_json r in
  let* doc_list := get_results data in
  let* have_dir := isdir TSV_PATH in
  (if have_dir then ret tt else mkdir TSV_PATH);;
  match doc_list with
  | Some rows =>
      write_in TSV_PATH (listing_file date) (FTsv rows);;
      ret (PyFrame (replace_nan rows))
  | None => ret (PyBool false)
  end.

Definition get_doc_json (E : environ) (self : Edinet)
    (date : option string) (output : bool) : M pyval :=
  let date := default (strftime (today E)) date in
  let doc_url := listing_url self date in
  let* r := requests_get E doc_url in
  if (status_code r =? 200)%Z && output then
    let name := "documents_" +:+ date +:+ ".json" in
    write_cwd name (FBytes []);;
    let* j := ret_json r in
    write_cwd name (FJsonDump j);;
    get_doc_json_rest r date
  else if (status_code r =? 404)%Z then
    print_err "status code: 404";;
    ret (PyBool false)
  else
    print ("status_code = " +:+ str_of_Z (status_code r));;
    get_doc_json_rest r date.

(** *** [get_document] *)

Definition extension_of (doc_type : Z) : string :=
  if (doc_type =? 2)%Z then "pdf" else "zip".

Definition get_document (E : environ) (self : Edinet)
    (doc_id : string) (doc_type : Z) (target_dir : string) : M pyval :=
  let doc_url := document_url self doc_id doc_type in
  let* r := requests_get E doc_url in
  let extension := extension_of doc_type in
  if (status_code r =? 200)%Z then
    write_in target_dir (doc_id +:+ "." +:+ extension) (FBytes (content r));;
    ret (PyBool true)
  else
    print_err ("status_code = " +:+ str_of_Z (status_code r));;
    ret (PyBool false).

(** *** The script under [if __name__ == '__main__'] *)

(** [ret is not False and len(ret) > 0], then [pd.concat([df, ret])]. *)
Definition accumulate (df : table) (r : pyval) : table :=
  match r with
  | PyFrame t => if (0 <? length t)%nat then df ++ t else df
  | _ => df
  end.

(** The [while target_date <= today] loop; [None] when the fuel runs out
    before the condition turns false. *)
Fixpoint main_loop (fuel : nat) (E : environ) (self : Edinet)
    (target_date end_date : Z) (df : table) : M (option table) :=
  match fuel with
  | O => ret None
  | S fuel' =>
      if (target_date <=? end_date)%Z then
        let* r := get_doc_json E self (Some (strftime target_date)) false in
        main_loop fuel' E self (target_date + 1) end_date (accumulate df r)
      else ret (Some df)
  end.

(** The whole script; the value is the final [df]. *)
Definition main (fuel : nat) (E : environ) : M (option table) :=
  let* edinet := init E None in
  let end_date := today E in
  let target_date := (end_date - 180)%Z in
  let* out := main_loop fuel E edinet target_date end_date [] in
  match out with
  | Some df => write_cwd "document_list.tsv" (FTsv df);; ret (Some df)
  | None => ret None
  end.

(** ** The asynchronous workers *)

(** The arguments a coroutine object is created with. *)
Inductive job :=
| ListingJob (date : option string)
| DocumentJob (doc_id target_dir : string) (doc_type : Z).

(** The locals a suspended worker keeps: the request target and the
    directory and name of [save_path]. *)
Record frame := MkFrame {
  doc_url : string;
  save_dir : string;
  save_name : string
}.

(** A coroutine is created, suspended in [session.get], suspended in
    [response.content.read()], or has returned. *)
Inductive coro_state :=
| NotStarted
| AwaitResponse (fr : frame)
| AwaitBody (fr : frame) (body : payload)
| Finished (result : pyval).

Record task := MkTask {
  task_job : job;
  task_state : coro_state
}.

(** The [except Exception as e] handler of both workers. *)
Definition on_error (fr : frame) (e : pyexn) (w : world) : coro_state * world :=
  (Finished PyNone,
   emit (EvOut ("Error fetching " +:+ doc_url fr +:+ ": " +:+ exn_str e)) w).

(** The part of the [try] block that follows [response.content.read()]. *)
Definition after_read (j : job) (fr : frame) (c : bytes) (d : json_view) : M unit :=
  match j with
  | DocumentJob _ _ _ =>
      write_in (save_dir fr) (save_name fr) (FBytes c)
  | ListingJob _ =>
      let* data := match d with NotJson => raise JSONDecodeError | _ => ret d end in
      let* doc_list := get_results data in
      match doc_list with
      | Some rows => write_in (save_dir fr) (save_name fr) (FTsv rows)
      | None => ret tt
      end
  end.

(** The code a worker runs from its creation to its first [await]. *)
Definition first_step (E : environ) (self : Edinet) (j : job) (w : world)
    : coro_state * world :=
  match j with
  | ListingJob date =>
      let date := default (strftime (today E)) date in
      let fr := MkFrame (listing_url self date) TSV_PATH (listing_file date) in
      let w1 := emit (EvOut (doc_url fr)) w in
      let w2 := add_dir TSV_PATH w1 in
      (AwaitResponse fr, emit (EvGet (clock w2) (doc_url fr)) w2)
  | DocumentJob doc_id target_dir doc_type =>
      let fr := MkFrame (document_url self doc_id doc_type) target_dir
                        (doc_id +:+ ".zip") in
      let w1 := add_dir target_dir w in
      (AwaitResponse fr, emit (EvGet (clock w1) (doc_url fr)) w1)
  end.

(** [async_get_doc_json] and [async_get_document], one resumption at a
    time: the event loop calls [resume] when the awaited result is there. *)
Definition resume (E : environ) (self : Edinet) (t : task) (w : world)
    : task * world :=
  let j := task_job t in
  let '(s, w') :=
    match task_state t with
    | NotStarted => first_step E self j w
    | AwaitResponse fr =>
        match remote E (doc_url fr) with
        | NetFail msg => on_error fr (ConnectionError msg) w
        | Response st body =>
            (AwaitBody fr body,
             emit (EvOut ("Fetching: " +:+ doc_url fr +:+ " (Status: "
                          +:+ str_of_Z st +:+ ")")) w)
        end
    | AwaitBody fr body =>
        match body with
        | ReadFail msg => on_error fr (ConnectionError msg) w
        | Payload c d =>
            match after_read j fr c d w with
            | (Ok _, w1) => (Finished PyNone, w1)
            | (Raise e, w1) => on_error fr e w1
            end
        end
    | Finished r => (Finished r, w)
    end in
  (MkTask j s, w').

(** ** The event loop behind [asyncio.gather] *)

(** A request is in flight from [session.get] until its body is read. *)
Definition in_flight (t : task) : bool :=
  match task_state t with
  | AwaitResponse _ | AwaitBody _ _ => true
  | _ => false
  end.


Definition task_result (t : task) : pyval :=
  match task_state t with Finished r => r | _ => PyNone end.

(** The tasks are started in argument order, each up to its first [await],
    before the loop polls the network. *)
Fixpoint start_all (E : environ) (self : Edinet) (ts : list task) (w : world)
    : list task * world :=
  match ts with
  | [] => ([], w)
  | t :: ts' =>
      let '(t', w1) := resume E self t w in
      let '(ts'', w2) := start_all E self ts' w1 in
      (t' :: ts'', w2)
  end.

(** The loop resumes the task whose awaited result arrived. *)
Definition resume_at (E : environ) (self : Edinet) (i : nat)
    (ts : list task) (w : world) : list task * world :=
  match ts !! i with
  | Some t => let '(t', w') := resume E self t w in (<[i := t']> ts, w')
  | None => (ts, w)
  end.

(** The arrival order of the network results is the schedule. *)
Fixpoint run_schedule (E : environ) (self : Edinet) (sched : list nat)
    (ts : list task) (w : world) : list task * world :=
  match sched with
  | [] => (ts, w)
  | i :: sched' =>
      let '(ts', w') := resume_at E self i ts w in
      run_schedule E self sched' ts' w'
  end.

(** Whatever the schedule left suspended completes in index order; a
    worker has three steps, and resuming a finished one does nothing. *)
Fixpoint drain (E : environ) (self : Edinet) (ts : list task) (w : world)
    : list task * world :=
  match ts with
  | [] => ([], w)
  | t :: ts' =>
      let '(t1, w1) := resume E self t w in
      let '(t2, w2) := resume E self t1 w1 in
      let '(t3, w3) := resume E self t2 w2 in
      let '(ts'', w4) := drain E self ts' w3 in
      (t3 :: ts'', w4)
  end.

(** One run of the loop: the start, the resumptions of the schedule, and
    the completion of the rest. *)
Definition run_tasks (E : environ) (self : Edinet) (sched : list nat)
    (ts : list task) (w : world) : list task * world :=
  let '(ts1, w1) := start_all E self ts w in
  let '(ts2, w2) := run_schedule E self sched ts1 w1 in
  drain E self ts2 w2.

(** [await asyncio.gather] over the task list: the results in argument order. *)
Definition gather (E : environ) (self : Edinet) (sched : list nat)
    (coros : list job) : M (list pyval) := fun w =>
  let '(ts, w') := run_tasks E self sched (map (fun j => MkTask j NotStarted) coros) w in
  (Ok (map task_result ts), w').

(** [async_get_docs]. *)
Definition async_get_docs (E : environ) (self : Edinet) (sched : list nat)
    (dates : list string) (sleep_time : Z) : M pyval :=
  let tasks := map (fun item => ListingJob (Some item)) dates in
  time_sleep sleep_time;;
  let* _ := gather E self sched tasks in
  ret PyNone.

(** [get_documents]; the dict is its items in insertion order. *)
Definition get_documents (E : environ) (self : Edinet) (sched : list nat)
    (doc_ids : list (string * string)) : M pyval :=
  let tasks := map (fun item : string * string =>
                      DocumentJob item.1 item.2 1) doc_ids in
  time_sleep 5;;
  let* _ := gather E self sched tasks in
  ret PyNone.

(** Awaiting one coroutine with nothing else on the loop. *)
Definition await_one (E : environ) (self : Edinet) (j : job) : M pyval := fun w =>
  let '(ts, w') := drain E self [MkTask j NotStarted] w in
  (Ok (default PyNone (task_result <$> head ts)), w').

Definition async_get_doc_json (E : environ) (self : Edinet)
    (date : option string) : M pyval :=
  await_one E self (ListingJob date).

Definition async_get_document (E : environ) (self : Edinet)
    (doc_id target_dir : string) (doc_type : Z) : M pyval :=
  await_one E self (DocumentJob doc_id target_dir doc_type).

(** ** Observations on a run *)

(** The events a computation added to the log of [w]. *)
Definition since (w w' : world) : list event := drop (length (log w)) (log w').

(** The request targets among some events, in the order they were issued. *)
Definition get_url (e : event) : option string :=
  match e with EvGet _ url => Some url | _ => None end.

Definition requests_issued (evs : list event) : list string := omap get_url evs.

(** The request target of a job. *)
Definition job_url (E : environ) (self : Edinet) (j : job) : string :=
  match j with
  | ListingJob date => listing_url self (default (strftime (today E)) date)
  | DocumentJob doc_id _ doc_type => document_url self doc_id doc_type
  end.

(** How many resumptions a worker is at most away from its end. *)
Definition rank (t : task) : nat :=
  match task_state t with
  | NotStarted => 3
  | AwaitResponse _ => 2
  | AwaitBody _ _ => 1
  | Finished _ => 0
  end.

(** A worker returns nothing but [None]. *)
Definition none_result (t : task) : Prop :=
  ∀ r, task_state t = Finished r → r = PyNone.

(** An event of a worker at time [now]: no sleep, and a GET bears [now]. *)
Definition stamped (now : Z) (e : event) : Prop :=
  match e with
  | EvGet t _ => t = now
  | EvSleep _ => False
  | _ => True
  end.

(** [w'] continues [w]: same clock, and the log of [w] extended. *)
Definition continues (w w' : world) : Prop :=
  clock w' = clock w ∧ log w' = log w ++ since w w'.

(** From [w] to [w'] the clock stands still, the log is extended by events
    stamped with that time, and the requests issued are [urls], in order. *)
Definition run (w w' : world) (urls : list string) : Prop :=
  continues w w' ∧
  Forall (stamped (clock w)) (since w w') ∧
  requests_issued (since w w') = urls.

(** A computation issues [urls]: from any world, it is a [run] with these
    requests, whether it returns or raises. *)
Definition issues {A} (c : M A) (urls : list string) : Prop :=
  ∀ w, run w (c w).2 urls.

(** A task that has been started and returns nothing but [None]. *)
Definition under_way (t : task) : Prop := rank t ≤ 2 ∧ none_result t.

(** ** The claims on one run *)

(** The claim of C8 on one call: it fails and has issued no request. *)
Definition rejected_before_network (w : world) (r : res pyval * world) : Prop :=
  (∃ e, r.1 = Raise e) ∧ requests_issued (since w r.2) = [].



(** ** The specification of the daily driver *)

(** The outcome of one completed listing fetch, in the words of the
    specification: the status is 404 ([NotFound]), the result collection is
    absent or empty ([EmptyResult]), or there is a table of records. *)
Inductive listing_outcome :=
| NotFound
| EmptyResult
| Records (t : table).

(** The outcome of a reply; [None] for a fetch that does not complete (no
    connection, unreadable body, or a body that is no JSON object). *)
Definition listing_outcome_of (r : reply) : option listing_outcome :=
  match r with
  | Response st (Payload _ d) =>
      if (st =? 404)%Z then Some NotFound
      else match d with
           | JsonObject None => Some EmptyResult
           | JsonObject (Some []) => Some EmptyResult
           | JsonObject (Some rows) => Some (Records (replace_nan rows))
           | _ => None
           end
  | _ => None
  end.

(** The combined table of the specification: the per-date tables in date
    order, the dates with [NotFound] or [EmptyResult] left out. *)
Fixpoint spec_combined_table (outs : list listing_outcome) : table :=
  match outs with
  | [] => []
  | Records t :: outs' => t ++ spec_combined_table outs'
  | _ :: outs' => spec_combined_table outs'
  end.

(** The dates of the closed interval, ascending. *)
Definition date_range (start_date end_date : Z) : list Z :=
  seqZ start_date (end_date - start_date + 1).

(** ** What a batch leaves on disk *)

(** The locals of a worker once it has started, read off its arguments. *)
Definition frame_of (E : environ) (self : Edinet) (j : job) : frame :=
  match j with
  | ListingJob date =>
      let date := default (strftime (today E)) date in
      MkFrame (listing_url self date) TSV_PATH (listing_file date)
  | DocumentJob doc_id target_dir doc_type =>
      MkFrame (document_url self doc_id doc_type) target_dir (doc_id +:+ ".zip")
  end.

(** The [save_path] of a worker. *)
Definition save_path (E : environ) (self : Edinet) (j : job) : string :=
  path_join (save_dir (frame_of E self j)) (save_name (frame_of E self j)).

(** What a worker stores under its [save_path], if anything: the body of a
    document reply, whatever its status, or the records of a listing. *)
Definition stored (E : environ) (self : Edinet) (j : job) : option file_data :=
  match remote E (job_url E self j) with
  | Response _ (Payload c d) =>
      match j with
      | DocumentJob _ _ _ => Some (FBytes c)
      | ListingJob _ =>
          match d with
          | JsonObject (Some rows) => Some (FTsv rows)
          | _ => None
          end
      end
  | _ => None
  end.

(** The files and the directories after the workers of [jobs] have run one
    after the other on [base]. *)
Definition batch_disk (E : environ) (self : Edinet) (jobs : list job)
    (base : gmap string file_data) : gmap string file_data :=
  foldr (fun j m => match stored E self j with
                    | Some d => <[save_path E self j := d]> m
                    | None => m
                    end) base jobs.

Definition batch_dirs (E : environ) (self : Edinet) (jobs : list job)
    (base : gset string) : gset string :=
  foldr (fun j ds => {[save_dir (frame_of E self j)]} ∪ ds) base jobs.

(** What a task has stored so far. *)
Definition wrote (E : environ) (self : Edinet) (t : task) : option file_data :=
  match task_state t with
  | Finished _ => stored E self (task_job t)
  | _ => None
  end.

(** The state of a task agrees with its arguments and with the world: its
    locals are those of its job, its directory exists, and the body it is
    about to read is the one the service sent. *)
Definition consistent (E : environ) (self : Edinet) (w : world) (t : task) : Prop :=
  match task_state t with
  | AwaitResponse fr =>
      fr = frame_of E self (task_job t) ∧ save_dir fr ∈ dirs w
  | AwaitBody fr body =>
      fr = frame_of E self (task_job t) ∧ save_dir fr ∈ dirs w ∧
      ∃ st, remote E (doc_url fr) = Response st body
  | _ => True
  end.

(** No two jobs store different contents under one path. *)
Definition no_conflict (E : environ) (self : Edinet) (jobs : list job) : Prop :=
  ∀ j1 j2 d1 d2, j1 ∈ jobs → j2 ∈ jobs →
    save_path E self j1 = save_path E self j2 →
    stored E self j1 = Some d1 → stored E self j2 = Some d2 → d1 = d2.

(** The invariant of the event loop, for a batch that began with the files
    [F0] and the directories [D0]. *)
Definition loop_inv (E : environ) (self : Edinet) (jobs : list job)
    (F0 : gmap string file_data) (D0 : gset string)
    (ts : list task) (w : world) : Prop :=
  map task_job ts = jobs ∧
  Forall (consistent E self w) ts ∧
  (∀ t d, t ∈ ts → wrote E self t = Some d →
          files w !! save_path E self (task_job t) = Some d) ∧
  (∀ p, (∀ t, t ∈ ts → save_path E self (task_job t) = p → wrote E self t = None) →
        files w !! p = F0 !! p) ∧
  (∀ d, d ∈ dirs w ↔
        d ∈ D0 ∨ ∃ t, t ∈ ts ∧ rank t ≠ 3 ∧
                       save_dir (frame_of E self (task_job t)) = d).

(** The schedule that resumes each of [n] tasks from index [i] three times. *)
Definition thrice (i n : nat) : list nat := flat_map (fun k => [k; k; k]) (seq i n).

(** The destination of one entry of the documents mapping. *)
Definition destination (item : string * string) : string :=
  path_join item.2 (item.1 +:+ ".zip").

(** The file [get_doc_json] dumps the listing to when [output] is set. *)
Definition dump_file (date : string) : string := "documents_" +:+ date +:+ ".json".

(** ** Fixtures *)

(** An empty working directory at time 0. *)
Definition w0 : world := World ∅ {["."]} [] 0.

(** An object whose key is ["k"]. *)
Definition me : Edinet := MkEdinet (KeyStr "k") None.

(** A listing record with one field filled and one missing. *)
Definition row_of (id : string) : row := [("docID", CStr id); ("formCode", CNaN)].

(** A mock service: 200 with archive bytes for A1, 404 for A2, 500 for A3,
    200 with a rendition for P1 of type 2, three days of listings of which
    the second has an empty [results], a fourth day answered with 500, 200
    for the empty document id and 400 for the date 2024-02-31; nothing else
    connects. *)
Definition mock (url : string) : reply :=
  if String.eqb url (document_url me "A1" 1)
  then Response 200 (Payload [Byte.x50; Byte.x4b] NotJson)
  else if String.eqb url (document_url me "A2" 1)
  then Response 404 (Payload [Byte.x7b; Byte.x7d] (JsonObject None))
  else if String.eqb url (document_url me "A3" 1)
  then Response 500 (Payload [Byte.x21] NotJson)
  else if String.eqb url (document_url me "P1" 2)
  then Response 200 (Payload [Byte.x25; Byte.x50; Byte.x44; Byte.x46] NotJson)
  else if String.eqb url (listing_url me "2024-01-10")
  then Response 200 (Payload [] (JsonObject (Some [row_of "S1"; row_of "S2"])))
  else if String.eqb url (listing_url me "2024-01-11")
  then Response 200 (Payload [] (JsonObject (Some [])))
  else if String.eqb url (listing_url me "2024-01-12")
  then Response 200 (Payload [] (JsonObject (Some [row_of "S3"])))
  else if String.eqb url (listing_url me "2024-01-13")
  then Response 500 (Payload [] (JsonObject (Some [row_of "S4"])))
  else if String.eqb url (document_url me "" 1)
  then Response 200 (Payload [Byte.x3c; Byte.x3e] NotJson)
  else if String.eqb url (listing_url me "2024-02-31")
  then Response 400 (Payload [] (JsonObject None))
  else NetFail "connection refused".

Definition E0 : environ := Environ (fun _ => None) mock 738895.

(** The same service for a process that has the variable set. *)
Definition E1 : environ :=
  Environ (fun name => if String.eqb name "EDINET_API_KEY" then Some "k" else None)
          mock 738895.

(** A working directory that holds a key file. *)
Definition w_key : world :=
  World {["key.json" := FKeyJson (Some "from-file")]} {["."]} [] 0.

(** A service that answers every request with 404. *)
Definition E404 : environ :=
  Environ (fun _ => None) (fun _ => Response 404 (Payload [] (JsonObject None))) 738895.

(** A working directory whose key file lacks the entry. *)
Definition w_nokey : world :=
  World {["key.json" := FKeyJson None]} {["."]} [] 0.

(** A service whose every body is no JSON, sent with status 200. *)
Definition E_garbled : environ :=
  Environ (fun _ => None) (fun _ => Response 200 (Payload [Byte.x3c] NotJson)) 738895.

(** A working directory that holds an earlier dump of 2024-01-10. *)
Definition w_dumped : world :=
  World {[dump_file "2024-01-10" := FJsonDump (JsonObject (Some [row_of "S0"]))]}
        {["."]} [] 0.

(** * Properties *)

(** ** Dates *)

Example strftime_2024_01_10 : strftime 738895 = "2024-01-10".
Proof. reflexivity. Qed.

Example strftime_leap_day : strftime 738945 = "2024-02-29".
Proof. reflexivity. Qed.

Example strftime_year_end :
  strftime 738885 = "2023-12-31" ∧ strftime 738886 = "2024-01-01".
Proof. split; reflexivity. Qed.

(** ** The log only grows *)

Lemma since_app (w w' : world) (evs : list event) :
  log w' = log w ++ evs → since w w' = evs.
Proof. unfold since. intros ->. apply drop_app_length. Qed.

Lemma since_refl (w : world) : since w w = [].
Proof. apply since_app. by rewrite app_nil_r. Qed.

(** Turns [since w w'] into the appended events once [w'] is explicit. *)
Ltac since_norm :=
  unfold since; cbn [log emit put_file add_dir advance];
  rewrite <- ?app_assoc; rewrite ?drop_app_length; cbn [app].

Lemma continues_refl (w : world) : continues w w.
Proof. split; [done|]. by rewrite since_refl, app_nil_r. Qed.

Lemma continues_trans (w1 w2 w3 : world) :
  continues w1 w2 → continues w2 w3 →
  continues w1 w3 ∧ since w1 w3 = since w1 w2 ++ since w2 w3.
Proof.
  intros [Hc12 Hl12] [Hc23 Hl23].
  assert (log w3 = log w1 ++ since w1 w2 ++ since w2 w3) as Hl.
  { rewrite Hl23, Hl12 at 1. by rewrite <- app_assoc. }
  assert (since w1 w3 = since w1 w2 ++ since w2 w3) as Hs
    by (by apply since_app).
  split; [|done]. split; [congruence|]. by rewrite Hs.
Qed.

Ltac log_norm :=
  unfold run, continues, since;
  cbn [log clock emit put_file add_dir advance fst snd];
  rewrite <- ?app_assoc; rewrite ?drop_app_length, ?drop_all, ?app_nil_r;
  cbn [app].

Lemma run_refl (w : world) : run w w [].
Proof.
  split; [apply continues_refl|]. rewrite since_refl. by split.
Qed.

Lemma run_trans (w1 w2 w3 : world) (u1 u2 : list string) :
  run w1 w2 u1 → run w2 w3 u2 → run w1 w3 (u1 ++ u2).
Proof.
  intros (Hc1 & Hs1 & Hr1) (Hc2 & Hs2 & Hr2).
  destruct (continues_trans _ _ _ Hc1 Hc2) as [Hc Hs].
  split; [done|]. rewrite Hs. split.
  - apply Forall_app. split; [done|].
    destruct Hc1 as [<- _]. done.
  - unfold requests_issued in *. by rewrite omap_app, Hr1, Hr2.
Qed.

(** ** Credential resolution *)

Lemma truthy_spec (v : option string) :
  truthy v = true ↔ ∃ k, v = Some k ∧ k ≠ "".
Proof.
  destruct v as [s|]; cbn.
  - destruct (String.eqb_spec s "") as [->|Hne]; cbn.
    + split; [done | intros (k & [= <-] & Hk); done].
    + split; [eauto | done].
  - split; [done | intros (k & [=] & _)].
Qed.

Lemma not_truthy (v : option string) :
  truthy v = false → v = None ∨ v = Some "".
Proof.
  destruct v as [s|]; cbn; [|by left].
  destruct (String.eqb_spec s "") as [->|Hne]; cbn; [by right | done].
Qed.

(** C10: when EDINET_API_KEY is set and not empty, construction stores its
    value as the key whatever key path was given, reads no file and shows no
    widget, and both request targets end in that value; a key file is opened
    only when the variable is absent (unset or empty) and the path names an
    existing file; the widget is shown only when the variable is absent and
    no usable key file was given. *)
Theorem init_credential_precedence (E : environ) (kp : option string) (w : world) :
  let env_key := getenv E "EDINET_API_KEY" in
  let w' := (init E kp w).2 in
  (∀ k, env_key = Some k → k ≠ "" →
     init E kp w = (Ok (MkEdinet (KeyStr k) kp), w) ∧
     (∀ date, listing_url (MkEdinet (KeyStr k) kp) date =
        URL +:+ "/documents.json?date=" +:+ date
            +:+ "&type=2&Subscription-Key=" +:+ k) ∧
     (∀ doc_id doc_type, document_url (MkEdinet (KeyStr k) kp) doc_id doc_type =
        URL +:+ "/documents/" +:+ doc_id +:+ "?type=" +:+ str_of_Z doc_type
            +:+ "&Subscription-Key=" +:+ k)) ∧
  (∀ p, EvOpenRead p ∈ since w w' →
     (env_key = None ∨ env_key = Some "") ∧ kp = Some p ∧ is_Some (files w !! p)) ∧
  (EvWidget ∈ since w w' →
     (env_key = None ∨ env_key = Some "") ∧
     (kp = None ∨ ∃ p, kp = Some p ∧ files w !! p = None)).
Proof.
  intros env_key w'. subst w'. unfold init. fold env_key.
  destruct (truthy env_key) eqn:Ht.
  - apply truthy_spec in Ht as (k0 & Hk0 & Hne0).
    rewrite Hk0. cbn. rewrite since_refl.
    split; [|split].
    + intros k [= <-] _. done.
    + intros p Hp. by apply elem_of_nil in Hp.
    + intros Hp. by apply elem_of_nil in Hp.
  - pose proof (not_truthy _ Ht) as Habs.
    split; [|split].
    + intros k Hk Hne. exfalso.
      assert (truthy env_key = true) by (apply truthy_spec; eauto). congruence.
    + intros p. destruct kp as [q|]; cbn.
      * unfold bind, isfile.
        destruct (bool_decide (is_Some (files w !! q))) eqn:Hf.
        -- apply bool_decide_eq_true in Hf.
           unfold load_key.
           destruct (files w !! q) as [fd|] eqn:Hq; [|by destruct Hf].
           intros Hp.
           assert (p = q) as ->.
           { destruct fd as [c|df|[| |r]|[k|]]; cbn in Hp;
               revert Hp; since_norm; intros Hp;
               repeat (apply elem_of_cons in Hp as [Hp|Hp];
                       [by (discriminate Hp || injection Hp)|]);
               by apply elem_of_nil in Hp. }
           split; [done|]. split; [done|]. by rewrite Hq.
        -- cbn. since_norm.
           intros [[=]|Hp]%elem_of_cons. by apply elem_of_nil in Hp.
      * unfold bind, ret, effect. since_norm.
        intros [[=]|Hp]%elem_of_cons. by apply elem_of_nil in Hp.
    + intros Hw. split; [done|].
      destruct kp as [q|]; [|by left]. right. exists q. split; [done|].
      revert Hw. cbn. unfold bind, isfile.
      destruct (bool_decide (is_Some (files w !! q))) eqn:Hf.
      * apply bool_decide_eq_true in Hf.
        unfold load_key.
        destruct (files w !! q) as [fd|] eqn:Hq; [|by destruct Hf].
        destruct fd as [c|df|[| |r]|[k|]]; cbn; since_norm; intros Hw;
          repeat (apply elem_of_cons in Hw as [Hw|Hw]; [discriminate Hw|]);
          by apply elem_of_nil in Hw.
      * apply bool_decide_eq_false in Hf. intros _.
        destruct (files w !! q); [|done]. exfalso. apply Hf. eauto.
Qed.

(** ** The synchronous workers *)

(** Unfolds one synchronous call down to the world it leaves. *)
Ltac run_sync :=
  unfold get_document, get_doc_json, get_doc_json_rest, requests_get,
    ret_json, get_results, write_in, write_cwd, print, print_err, mkdir,
    isdir, effect, bind, ret, raise;
  cbn [status_code content decoded fst snd].

Lemma issues_ret {A} (a : A) : issues (ret a) [].
Proof. intros w. apply run_refl. Qed.

Lemma issues_raise {A} (e : pyexn) : issues (@raise A e) [].
Proof. intros w. apply run_refl. Qed.

Lemma issues_bind {A B} (c : M A) (k : A → M B) (urls : list string) :
  issues c urls → (∀ a, issues (k a) []) → issues (bind c k) urls.
Proof.
  intros Hc Hk w. unfold bind. specialize (Hc w).
  destruct (c w) as [[a|e] w1]; cbn [snd] in *; [|done].
  rewrite <- (app_nil_r urls). eapply run_trans; [done | apply Hk].
Qed.

Lemma issues_print (s : string) : issues (print s) [].
Proof. intros w. unfold print, effect. log_norm. repeat split; repeat constructor. Qed.

Lemma issues_print_err (s : string) : issues (print_err s) [].
Proof. intros w. unfold print_err, effect. log_norm. repeat split; repeat constructor. Qed.

Lemma issues_mkdir (d : string) : issues (mkdir d) [].
Proof. intros w. unfold mkdir, effect. log_norm. repeat split; repeat constructor. Qed.

Lemma issues_isdir (d : string) : issues (isdir d) [].
Proof. intros w. apply run_refl. Qed.

Lemma issues_write_cwd (name : string) (data : file_data) :
  issues (write_cwd name data) [].
Proof. intros w. unfold write_cwd, effect. log_norm. repeat split; repeat constructor. Qed.

Lemma issues_write_in (d name : string) (data : file_data) :
  issues (write_in d name data) [].
Proof.
  intros w. unfold write_in. destruct (bool_decide _); cbn [snd];
    log_norm; repeat split; repeat constructor.
Qed.

Lemma issues_ret_json (r : http_response) : issues (ret_json r) [].
Proof. unfold ret_json. destruct (decoded r); auto using @issues_ret, @issues_raise. Qed.

Lemma issues_get_results (data : json_view) : issues (get_results data) [].
Proof. destruct data; cbn; auto using @issues_ret, @issues_raise. Qed.

Lemma issues_requests_get (E : environ) (url : string) :
  issues (requests_get E url) [url].
Proof.
  intros w. unfold requests_get.
  destruct (remote E url) as [msg|st [msg|c d]]; cbn [snd];
    log_norm; repeat split; repeat constructor.
Qed.

Create HintDb issues discriminated.
#[local] Hint Resolve issues_ret issues_raise issues_print issues_print_err
  issues_mkdir issues_isdir issues_write_cwd issues_write_in issues_ret_json
  issues_get_results : issues.

(** Closes [issues c []] for a computation built from the calls above. *)
Ltac quiet :=
  repeat first
    [ progress eauto with issues
    | apply issues_bind; [|intros ?]
    | match goal with
      | |- issues (if ?b then _ else _) _ => destruct b
      | |- issues (match ?x with _ => _ end) _ => destruct x
      end ].

Lemma issues_get_doc_json_rest (r : http_response) (date : string) :
  issues (get_doc_json_rest r date) [].
Proof. unfold get_doc_json_rest. quiet. Qed.

(** Each synchronous worker issues exactly one request, to its target. *)
Lemma get_doc_json_run (E : environ) (self : Edinet)
    (date : option string) (output : bool) :
  issues (get_doc_json E self date output)
         [listing_url self (default (strftime (today E)) date)].
Proof.
  unfold get_doc_json.
  apply issues_bind; [apply issues_requests_get|]. intros r.
  pose proof issues_get_doc_json_rest. quiet.
Qed.

Lemma get_document_run (E : environ) (self : Edinet)
    (doc_id : string) (doc_type : Z) (target_dir : string) :
  issues (get_document E self doc_id doc_type target_dir)
         [document_url self doc_id doc_type].
Proof.
  unfold get_document.
  apply issues_bind; [apply issues_requests_get|]. intros r. quiet.
Qed.

Lemma get_document_requests (E : environ) (self : Edinet)
    (doc_id : string) (doc_type : Z) (target_dir : string) (w : world) :
  requests_issued (since w (get_document E self doc_id doc_type target_dir w).2)
  = [document_url self doc_id doc_type].
Proof. apply get_document_run. Qed.

Lemma get_doc_json_requests (E : environ) (self : Edinet)
    (date : option string) (output : bool) (w : world) :
  requests_issued (since w (get_doc_json E self date output w).2)
  = [listing_url self (default (strftime (today E)) date)].
Proof. apply get_doc_json_run. Qed.

(** C8 (as the code has it): no request target is validated.  Whatever the
    date string and whatever the document id, the empty one included, the
    target is built by interpolation and exactly one GET is issued to it. *)
Theorem request_targets_are_not_validated (E : environ) (self : Edinet) (w : world) :
  (∀ date output,
     requests_issued (since w (get_doc_json E self (Some date) output w).2)
     = [listing_url self date]) ∧
  (∀ doc_id doc_type target_dir,
     requests_issued (since w (get_document E self doc_id doc_type target_dir w).2)
     = [document_url self doc_id doc_type]).
Proof.
  split.
  - intros date output. apply get_doc_json_requests.
  - intros. apply get_document_requests.
Qed.

(** An empty document id and the date 2024-02-31 both reach the network:
    the first call stores the reply under [./.zip] and returns [True], the
    second prints the status and returns [False]. *)
Lemma empty_id_and_invalid_date_reach_network :
  ¬ rejected_before_network w0 (get_document E0 me "" 1 "." w0) ∧
  ¬ rejected_before_network w0 (get_doc_json E0 me (Some "2024-02-31") false w0) ∧
  (get_document E0 me "" 1 "." w0).1 = Ok (PyBool true) ∧
  files (get_document E0 me "" 1 "." w0).2 !! "./.zip"
  = Some (FBytes [Byte.x3c; Byte.x3e]) ∧
  requests_issued (since w0 (get_document E0 me "" 1 "." w0).2)
  = ["https://api.edinet-fsa.go.jp/api/v2/documents/?type=1&Subscription-Key=k"] ∧
  (get_doc_json E0 me (Some "2024-02-31") false w0).1 = Ok (PyBool false) ∧
  requests_issued (since w0 (get_doc_json E0 me (Some "2024-02-31") false w0).2)
  = ["https://api.edinet-fsa.go.jp/api/v2/documents.json?date=2024-02-31&type=2&Subscription-Key=k"].
Proof.
  unfold rejected_before_network.
  split; [|split]; [intros [_ H]; vm_compute in H; discriminate H ..|].
  repeat split; vm_compute; reflexivity.
Qed.

(** C2 at its failing inputs: a connection failure, a timeout or a body that
    cannot be read makes [requests.get] raise, and neither [get_document] nor
    [get_doc_json] catches it; a body that is no JSON makes [get_doc_json]
    raise from [ret.json()]. *)
Theorem sync_workers_let_exceptions_escape (E : environ) (self : Edinet) (w : world) :
  (∀ doc_id doc_type target_dir msg,
     remote E (document_url self doc_id doc_type) = NetFail msg →
     (get_document E self doc_id doc_type target_dir w).1
     = Raise (ConnectionError msg)) ∧
  (∀ date output msg,
     remote E (listing_url self date) = NetFail msg →
     (get_doc_json E self (Some date) output w).1 = Raise (ConnectionError msg)) ∧
  (∀ date output st c,
     st ≠ 404%Z →
     remote E (listing_url self date) = Response st (Payload c NotJson) →
     (get_doc_json E self (Some date) output w).1 = Raise JSONDecodeError).
Proof.
  split; [|split].
  - intros doc_id doc_type target_dir msg H. run_sync. by rewrite H.
  - intros date output msg H. run_sync. cbn. by rewrite H.
  - intros date output st c Hst H. run_sync. cbn. rewrite H. cbn.
    destruct (Z.eqb_spec st 404) as [->|_]; [done|].
    by destruct ((st =? 200)%Z && output).
Qed.

Lemma sync_workers_let_exceptions_escape_witness :
  (get_document E0 me "A9" 1 "." w0).1 = Raise (ConnectionError "connection refused").
Proof.
  destruct (sync_workers_let_exceptions_escape E0 me w0) as [H _].
  apply H. reflexivity.
Defined.

(** ** One asynchronous worker awaited alone *)

Ltac run_async :=
  unfold async_get_document, async_get_doc_json, await_one, drain, resume,
    first_step, on_error, after_read, get_results, write_in, bind, ret, raise;
  cbn [task_job task_state doc_url save_dir save_name fst snd head fmap
       option_fmap option_map default task_result list_fmap].

Lemma dir_created (d : string) (ds : gset string) :
  bool_decide (d ∈ {[d]} ∪ ds) = true.
Proof. apply bool_decide_eq_true. set_solver. Qed.

(** The sibling in the [try] block: nothing escapes [async_get_document],
    and a failed connection or read writes no file. *)
Lemma async_get_document_catches (E : environ) (self : Edinet)
    (doc_id target_dir : string) (doc_type : Z) (w : world) :
  (async_get_document E self doc_id target_dir doc_type w).1 = Ok PyNone ∧
  (∀ msg, remote E (document_url self doc_id doc_type) = NetFail msg →
     files (async_get_document E self doc_id target_dir doc_type w).2 = files w) ∧
  (∀ st msg, remote E (document_url self doc_id doc_type) = Response st (ReadFail msg) →
     files (async_get_document E self doc_id target_dir doc_type w).2 = files w).
Proof.
  split; [|split].
  - run_async.
    destruct (remote E _) as [msg|st [msg|c d]]; cbn; try done.
    rewrite dir_created. done.
  - intros msg H. run_async. by rewrite H.
  - intros st msg H. run_async. by rewrite H.
Qed.

(** Whatever the status, [async_get_document] stores the body under
    [<target_dir>/<doc_id>.zip], and touches no other file. *)
Lemma async_get_document_stores_body (E : environ) (self : Edinet)
    (doc_id target_dir : string) (doc_type st : Z) (c : bytes) (d : json_view)
    (w : world) :
  remote E (document_url self doc_id doc_type) = Response st (Payload c d) →
  let w' := (async_get_document E self doc_id target_dir doc_type w).2 in
  files w' !! path_join target_dir (doc_id +:+ ".zip") = Some (FBytes c) ∧
  ∀ p, p ≠ path_join target_dir (doc_id +:+ ".zip") → files w' !! p = files w !! p.
Proof.
  intros H. run_async. rewrite H. cbn. rewrite dir_created. cbn.
  split.
  - apply lookup_insert_eq.
  - intros p Hp. by rewrite lookup_insert_ne.
Qed.

(** ** Status handling of the document workers *)

(** The synchronous sibling tests the status: anything but 200 is reported
    on stderr with its code, the result is [False] and no file is written. *)
Lemma get_document_not_200 (E : environ) (self : Edinet)
    (doc_id target_dir : string) (doc_type st : Z) (c : bytes) (d : json_view)
    (w : world) :
  remote E (document_url self doc_id doc_type) = Response st (Payload c d) →
  st ≠ 200%Z →
  get_document E self doc_id doc_type target_dir w
  = (Ok (PyBool false),
     emit (EvErr ("status_code = " +:+ str_of_Z st))
          (emit (EvGet (clock w) (document_url self doc_id doc_type)) w)).
Proof.
  intros H Hst. run_sync. rewrite H. cbn.
  by destruct (Z.eqb_spec st 200).
Qed.

(** [get_doc_json] on 404: [False], one line on stderr, nothing written. *)
Lemma get_doc_json_404 (E : environ) (self : Edinet) (date : string)
    (output : bool) (c : bytes) (d : json_view) (w : world) :
  remote E (listing_url self date) = Response 404 (Payload c d) →
  get_doc_json E self (Some date) output w
  = (Ok (PyBool false),
     emit (EvErr "status code: 404")
          (emit (EvGet (clock w) (listing_url self date)) w)).
Proof. intros H. run_sync. cbn. by rewrite H. Qed.

(** C3 at its failing input: [async_get_document] does not look at the
    status, so on 404 it returns [None] like on success and stores the body
    of the 404 response under [<target_dir>/<doc_id>.zip]. *)
Theorem async_get_document_writes_on_404 (E : environ) (self : Edinet)
    (doc_id target_dir : string) (doc_type : Z) (c : bytes) (d : json_view)
    (w : world) :
  remote E (document_url self doc_id doc_type) = Response 404 (Payload c d) →
  let r := async_get_document E self doc_id target_dir doc_type w in
  r.1 = Ok PyNone ∧
  files r.2 !! path_join target_dir (doc_id +:+ ".zip") = Some (FBytes c).
Proof.
  intros H r. subst r. split.
  - apply async_get_document_catches.
  - by apply (async_get_document_stores_body E self doc_id target_dir doc_type 404 c d).
Qed.

Lemma async_get_document_writes_on_404_witness :
  files w0 !! "./out/A2.zip" = None ∧
  files (async_get_document E0 me "A2" "./out" 1 w0).2 !! "./out/A2.zip"
  = Some (FBytes [Byte.x7b; Byte.x7d]).
Proof.
  split; [reflexivity|].
  apply (async_get_document_writes_on_404 E0 me "A2" "./out" 1
           [Byte.x7b; Byte.x7d] (JsonObject None) w0).
  reflexivity.
Defined.

(** C5 at its failing input: on a status that is neither 200 nor 404
    [async_get_document] still stores the body under
    [<target_dir>/<doc_id>.zip]; the status appears only in the line
    printed on stdout. *)
Theorem async_get_document_writes_on_error_status (E : environ) (self : Edinet)
    (doc_id target_dir : string) (doc_type st : Z) (c : bytes) (d : json_view)
    (w : world) :
  st ≠ 200%Z → st ≠ 404%Z →
  remote E (document_url self doc_id doc_type) = Response st (Payload c d) →
  let r := async_get_document E self doc_id target_dir doc_type w in
  r.1 = Ok PyNone ∧
  files r.2 !! path_join target_dir (doc_id +:+ ".zip") = Some (FBytes c).
Proof.
  intros _ _ H r. subst r. split.
  - apply async_get_document_catches.
  - by apply (async_get_document_stores_body E self doc_id target_dir doc_type st c d).
Qed.

Lemma async_get_document_writes_on_error_status_witness :
  files w0 !! "./out/A3.zip" = None ∧
  files (async_get_document E0 me "A3" "./out" 1 w0).2 !! "./out/A3.zip"
  = Some (FBytes [Byte.x21]).
Proof.
  split; [reflexivity|].
  apply (async_get_document_writes_on_error_status E0 me "A3" "./out" 1 500
           [Byte.x21] NotJson w0); [lia | lia | reflexivity].
Defined.

(** [get_doc_json] on a status that is neither 200 nor 404 prints the code
    and carries on: a body with records is written and returned as on 200. *)
Lemma get_doc_json_error_status_falls_through (E : environ) (self : Edinet)
    (date : string) (output : bool) (st : Z) (c : bytes) (rows : table) (w : world) :
  st ≠ 200%Z → st ≠ 404%Z →
  remote E (listing_url self date) = Response st (Payload c (JsonObject (Some rows))) →
  let r := get_doc_json E self (Some date) output w in
  r.1 = Ok (PyFrame (replace_nan rows)) ∧
  files r.2 !! path_join TSV_PATH (listing_file date) = Some (FTsv rows).
Proof.
  intros H200 H404 H r. subst r. run_sync. cbn. rewrite H. cbn.
  destruct (Z.eqb_spec st 200) as [|_]; [done|].
  destruct (Z.eqb_spec st 404) as [|_]; [done|]. cbn.
  destruct (bool_decide (TSV_PATH ∈ dirs w)) eqn:Hd; cbn.
  - rewrite Hd. cbn. split; [done|]. apply lookup_insert_eq.
  - rewrite dir_created. cbn. split; [done|]. apply lookup_insert_eq.
Qed.

(** The documents batch of the concrete scenario, replies arriving in
    reverse order: A2 (404) and A3 (500) leave files next to A1's. *)
Example three_documents_scenario :
  let r := get_documents E0 me [2; 1; 0; 0; 2; 1]%nat
             [("A1", "./out"); ("A2", "./out"); ("A3", "./out")] w0 in
  r.1 = Ok PyNone ∧
  files r.2 !! "./out/A1.zip" = Some (FBytes [Byte.x50; Byte.x4b]) ∧
  files r.2 !! "./out/A2.zip" = Some (FBytes [Byte.x7b; Byte.x7d]) ∧
  files r.2 !! "./out/A3.zip" = Some (FBytes [Byte.x21]).
Proof. vm_compute. done. Qed.

(** ** File names of the document workers *)

Lemma zip_is_not_pdf (target_dir doc_id : string) :
  path_join target_dir (doc_id +:+ ".pdf") ≠ path_join target_dir (doc_id +:+ ".zip").
Proof.
  unfold path_join. intros H.
  apply (inj (String.app target_dir)) in H.
  apply (inj (String.app "/")) in H.
  apply (inj (String.app doc_id)) in H.
  discriminate H.
Qed.

(** The synchronous sibling chooses the extension from the type. *)
Lemma get_document_extension (E : environ) (self : Edinet)
    (doc_id target_dir : string) (doc_type : Z) (c : bytes) (d : json_view)
    (w : world) :
  remote E (document_url self doc_id doc_type) = Response 200 (Payload c d) →
  target_dir ∈ dirs w →
  let r := get_document E self doc_id doc_type target_dir w in
  let ext := if decide (doc_type = 2%Z) then "pdf" else "zip" in
  r.1 = Ok (PyBool true) ∧
  files r.2 !! path_join target_dir (doc_id +:+ "." +:+ ext) = Some (FBytes c).
Proof.
  intros H Hd r ext. subst r ext. run_sync. rewrite H. cbn.
  rewrite bool_decide_eq_true_2 by done. cbn.
  split; [done|]. unfold extension_of.
  destruct (Z.eqb_spec doc_type 2); case_decide; try done; apply lookup_insert_eq.
Qed.

(** C6 at its failing input: for a rendered document (type 2) answered with
    200, [async_get_document] stores the body under
    [<target_dir>/<doc_id>.zip]; nothing is written under
    [<target_dir>/<doc_id>.pdf]. *)
Theorem async_get_document_ignores_doc_type (E : environ) (self : Edinet)
    (doc_id target_dir : string) (c : bytes) (d : json_view) (w : world) :
  remote E (document_url self doc_id 2) = Response 200 (Payload c d) →
  let w' := (async_get_document E self doc_id target_dir 2 w).2 in
  files w' !! path_join target_dir (doc_id +:+ ".zip") = Some (FBytes c) ∧
  files w' !! path_join target_dir (doc_id +:+ ".pdf")
  = files w !! path_join target_dir (doc_id +:+ ".pdf").
Proof.
  intros H w'. subst w'.
  destruct (async_get_document_stores_body E self doc_id target_dir 2 200 c d w H)
    as [Hzip Hother].
  split; [exact Hzip|]. apply Hother, zip_is_not_pdf.
Qed.

Lemma async_get_document_ignores_doc_type_witness :
  files (async_get_document E0 me "P1" "./out" 2 w0).2 !! "./out/P1.zip"
  = Some (FBytes [Byte.x25; Byte.x50; Byte.x44; Byte.x46]) ∧
  files (async_get_document E0 me "P1" "./out" 2 w0).2 !! "./out/P1.pdf" = None.
Proof.
  apply (async_get_document_ignores_doc_type E0 me "P1" "./out"
           [Byte.x25; Byte.x50; Byte.x44; Byte.x46] NotJson w0).
  reflexivity.
Defined.

(** ** One resumption of a worker *)

Lemma resume_spec (E : environ) (self : Edinet) (t : task) (w : world) :
  let t' := (resume E self t w).1 in
  let w' := (resume E self t w).2 in
  task_job t' = task_job t ∧
  rank t' ≤ pred (rank t) ∧
  (none_result t → none_result t') ∧
  (rank t = 3 → in_flight t' = true) ∧
  continues w w' ∧
  Forall (stamped (clock w)) (since w w') ∧
  requests_issued (since w w')
  = (if decide (rank t = 3) then [job_url E self (task_job t)] else []).
Proof.
  destruct t as [j s]. unfold resume, rank, none_result, in_flight.
  cbn [task_job task_state].
  destruct s as [|fr|fr body|r].
  - destruct j as [date|doc_id target_dir doc_type]; cbn;
      (split; [done|]; split; [lia|]; split; [done|]; split; [done|]);
      log_norm; repeat split; repeat constructor.
  - destruct (remote E (doc_url fr)) as [msg|st body]; cbn;
      (split; [done|]; split; [lia|]; split; [by (intros _ ? ?; simplify_eq)|];
       split; [done|]);
      log_norm; repeat split; repeat constructor.
  - destruct body as [msg|c d]; cbn.
    + (split; [done|]; split; [lia|]; split; [by (intros _ ? ?; simplify_eq)|];
       split; [done|]);
      log_norm; repeat split; repeat constructor.
    + unfold after_read, write_in, get_results, bind, ret, raise.
      destruct j as [date|doc_id target_dir doc_type];
        [destruct d as [| |[rows|]]|]; cbn;
        try destruct (bool_decide (save_dir fr ∈ dirs w)); cbn;
        (split; [done|]; split; [lia|]; split; [by (intros _ ? ?; simplify_eq)|];
         split; [done|]);
        log_norm; repeat split; repeat constructor.
  - cbn. split; [done|]. split; [lia|]. split; [done|]. split; [done|].
    log_norm. repeat split; repeat constructor.
Qed.

(** ** Runs of the event loop *)

Lemma resume_run (E : environ) (self : Edinet) (t : task) (w : world) :
  run w (resume E self t w).2
      (if decide (rank t = 3) then [job_url E self (task_job t)] else []).
Proof.
  destruct (resume_spec E self t w) as (_ & _ & _ & _ & Hc & Hs & Hr).
  by split.
Qed.

Lemma resume_under_way (E : environ) (self : Edinet) (t : task) (w : world) :
  under_way t →
  under_way (resume E self t w).1 ∧
  rank (resume E self t w).1 ≤ pred (rank t) ∧
  task_job (resume E self t w).1 = task_job t ∧
  run w (resume E self t w).2 [].
Proof.
  intros [Hr Hn].
  destruct (resume_spec E self t w) as (Hj & Hrk & Hnone & _ & _).
  pose proof (resume_run E self t w) as Hrun.
  destruct (decide (rank t = 3)); [lia|].
  split; [|split; [|split]]; [|lia|done|done].
  split; [lia | by apply Hnone].
Qed.

Lemma start_all_spec (E : environ) (self : Edinet) (jobs : list job) (w : world) :
  let r := start_all E self (map (fun j => MkTask j NotStarted) jobs) w in
  map task_job r.1 = jobs ∧
  Forall under_way r.1 ∧
  Forall (fun t => in_flight t = true) r.1 ∧
  run w r.2 (map (job_url E self) jobs).
Proof.
  revert w. induction jobs as [|j jobs IH]; intros w; cbn.
  - split; [done|]. split; [constructor|]. split; [constructor|]. apply run_refl.
  - destruct (resume_spec E self (MkTask j NotStarted) w)
      as (Hj & Hrk & Hnone & Hfl & _).
    pose proof (resume_run E self (MkTask j NotStarted) w) as Hrun.
    destruct (resume E self (MkTask j NotStarted) w) as [t' w1].
    specialize (IH w1).
    destruct (start_all E self _ w1) as [ts w2].
    cbn in *. destruct IH as (IHj & IHu & IHf & IHr).
    split; [|split; [|split]].
    + by rewrite Hj, IHj.
    + constructor; [|done]. split; [lia|].
      apply Hnone. intros r [=].
    + constructor; [by apply Hfl | done].
    + apply (run_trans w w1 w2 [_] _ Hrun IHr).
Qed.

Lemma resume_at_spec (E : environ) (self : Edinet) (i : nat)
    (ts : list task) (w : world) :
  Forall under_way ts →
  let r := resume_at E self i ts w in
  Forall under_way r.1 ∧
  map task_job r.1 = map task_job ts ∧
  run w r.2 [].
Proof.
  intros Hts. unfold resume_at.
  destruct (ts !! i) as [t|] eqn:Hi; cbn.
  - assert (under_way t) as Ht by (by eapply Forall_lookup_1).
    destruct (resume_under_way E self t w Ht) as (Hu & _ & Hj & Hrun).
    destruct (resume E self t w) as [t' w']. cbn in *.
    split; [|split].
    + by apply Forall_insert.
    + rewrite list_fmap_insert, Hj.
      apply list_insert_id. by rewrite list_lookup_fmap, Hi.
    + apply Hrun.
  - split; [done|]. split; [done|]. apply run_refl.
Qed.

Lemma run_schedule_spec (E : environ) (self : Edinet) (sched : list nat)
    (ts : list task) (w : world) :
  Forall under_way ts →
  let r := run_schedule E self sched ts w in
  Forall under_way r.1 ∧
  map task_job r.1 = map task_job ts ∧
  run w r.2 [].
Proof.
  revert ts w. induction sched as [|i sched IH]; intros ts w Hts; cbn.
  - split; [done|]. split; [done|]. apply run_refl.
  - destruct (resume_at_spec E self i ts w Hts) as (Hu & Hj & Hrun).
    destruct (resume_at E self i ts w) as [ts1 w1]. cbn in *.
    destruct (IH ts1 w1 Hu) as (Hu2 & Hj2 & Hrun2).
    split; [done|]. split; [congruence|].
    apply (run_trans w w1 _ [] [] Hrun Hrun2).
Qed.

Lemma drain_spec (E : environ) (self : Edinet) (ts : list task) (w : world) :
  Forall under_way ts →
  let r := drain E self ts w in
  Forall (fun t => task_state t = Finished PyNone) r.1 ∧
  map task_job r.1 = map task_job ts ∧
  run w r.2 [].
Proof.
  revert w. induction ts as [|t ts IH]; intros w Hts; cbn.
  - split; [constructor|]. split; [done|]. apply run_refl.
  - apply Forall_cons in Hts as [Ht Hts].
    destruct (resume_under_way E self t w Ht) as (Hu1 & Hr1 & Hj1 & Hrun1).
    destruct (resume E self t w) as [t1 w1]. cbn in *.
    destruct (resume_under_way E self t1 w1 Hu1) as (Hu2 & Hr2 & Hj2 & Hrun2).
    destruct (resume E self t1 w1) as [t2 w2]. cbn in *.
    destruct (resume_under_way E self t2 w2 Hu2) as (Hu3 & Hr3 & Hj3 & Hrun3).
    destruct (resume E self t2 w2) as [t3 w3]. cbn in *.
    destruct (IH w3 Hts) as (Hf & Hj & Hrun).
    destruct (drain E self ts w3) as [ts' w4]. cbn in *.
    split; [|split].
    + constructor; [|done].
      destruct Hu3 as [Hle Hnone]. destruct Ht as [Hle0 _].
      unfold rank, none_result in *.
      destruct (task_state t3) as [| | |r] eqn:Hs; try lia.
      by rewrite (Hnone r).
    + congruence.
    + pose proof (run_trans _ _ _ _ _ Hrun1 Hrun2) as H12.
      pose proof (run_trans _ _ _ _ _ H12 Hrun3) as H13.
      apply (run_trans _ _ _ _ _ H13 Hrun).
Qed.

(** One run of [gather]: every job has its task at its index, every task
    has finished with [None], and the requests went out in argument order,
    all at the time the run began. *)
Lemma run_tasks_spec (E : environ) (self : Edinet) (sched : list nat)
    (jobs : list job) (w : world) :
  let r := run_tasks E self sched (map (fun j => MkTask j NotStarted) jobs) w in
  map task_job r.1 = jobs ∧
  Forall (fun t => task_state t = Finished PyNone) r.1 ∧
  run w r.2 (map (job_url E self) jobs).
Proof.
  unfold run_tasks.
  destruct (start_all_spec E self jobs w) as (Hj1 & Hu1 & _ & Hrun1).
  destruct (start_all E self _ w) as [ts1 w1]. cbn in *.
  destruct (run_schedule_spec E self sched ts1 w1 Hu1) as (Hu2 & Hj2 & Hrun2).
  destruct (run_schedule E self sched ts1 w1) as [ts2 w2]. cbn in *.
  destruct (drain_spec E self ts2 w2 Hu2) as (Hf & Hj3 & Hrun3).
  destruct (drain E self ts2 w2) as [ts3 w3]. cbn in *.
  split; [congruence|]. split; [done|].
  pose proof (run_trans _ _ _ _ _ Hrun1 Hrun2) as H12.
  pose proof (run_trans _ _ _ _ _ H12 Hrun3) as H13.
  by rewrite !app_nil_r in H13.
Qed.

(** ** The two batch functions *)

(** The common body of [async_get_docs] and [get_documents]: the sleep is
    the first event, and the requests follow it at the later time. *)
Lemma sleep_then_gather (E : environ) (self : Edinet) (sched : list nat)
    (jobs : list job) (d : Z) (w : world) :
  let r := (time_sleep d;; let* _ := gather E self sched jobs in ret PyNone) w in
  let w1 := advance d (emit (EvSleep d) w) in
  if (d <? 0)%Z then r = (Raise ValueError, w)
  else r.1 = Ok PyNone ∧
       since w r.2 = EvSleep d :: since w1 r.2 ∧
       run w1 r.2 (map (job_url E self) jobs).
Proof.
  unfold bind, time_sleep, gather, ret, raise, effect.
  destruct (d <? 0)%Z; [done|].
  destruct (run_tasks_spec E self sched jobs (advance d (emit (EvSleep d) w)))
    as (_ & _ & Hrun).
  destruct (run_tasks E self sched _ _) as [ts w2]. cbn [fst snd] in *.
  split; [done|]. split; [|done].
  destruct Hrun as ((_ & Hlog) & _).
  set (evs := since (advance d (emit (EvSleep d) w)) w2) in *. clearbody evs.
  apply since_app. rewrite Hlog. cbn [log advance emit].
  by rewrite <- app_assoc.
Qed.



(** C9: in both batch functions the sleep comes first.  Whatever request of
    the batch is found in the log, the sleep of the full delay precedes it
    and the request bears a time at least the delay after the start. *)
Theorem batch_sleeps_before_first_request (E : environ) (self : Edinet)
    (sched : list nat) (w : world) :
  (∀ dates sleep_time pre t url post,
     since w (async_get_docs E self sched dates sleep_time w).2
     = pre ++ EvGet t url :: post →
     EvSleep sleep_time ∈ pre ∧ (clock w + sleep_time ≤ t)%Z) ∧
  (∀ doc_ids pre t url post,
     since w (get_documents E self sched doc_ids w).2
     = pre ++ EvGet t url :: post →
     EvSleep 5 ∈ pre ∧ (clock w + 5 ≤ t)%Z).
Proof.
  assert (∀ jobs d pre t url post,
    since w ((time_sleep d;; let* _ := gather E self sched jobs in ret PyNone) w).2
    = pre ++ EvGet t url :: post →
    EvSleep d ∈ pre ∧ (clock w + d ≤ t)%Z) as Hboth.
  { intros jobs d pre t url post.
    pose proof (sleep_then_gather E self sched jobs d w) as H. cbn zeta in H.
    destruct (d <? 0)%Z.
    - rewrite H. cbn. rewrite since_refl. by destruct pre.
    - destruct H as (_ & -> & _ & Hst & _). cbn in Hst.
      destruct pre as [|e pre]; cbn; [intros [=]|].
      intros [= <- Hrest]. split; [by left|].
      rewrite Hrest in Hst.
      apply Forall_app in Hst as [_ Hst].
      apply Forall_cons in Hst as [Hst _]. cbn in Hst. lia. }
  split.
  - intros dates sleep_time. apply Hboth.
  - intros doc_ids. apply Hboth.
Qed.

Lemma batch_sleeps_before_first_request_witness :
  since w0 (get_documents E0 me [1; 0]%nat [("A1", "./out"); ("A2", "./out")] w0).2
  = [EvSleep 5] ++ EvGet 5 (document_url me "A1" 1)
      :: drop 2 (since w0 (get_documents E0 me [1; 0]%nat
                             [("A1", "./out"); ("A2", "./out")] w0).2) ∧
  EvSleep 5 ∈ [EvSleep 5] ∧ (clock w0 + 5 ≤ 5)%Z.
Proof.
  assert (since w0 (get_documents E0 me [1; 0]%nat
                      [("A1", "./out"); ("A2", "./out")] w0).2
          = [EvSleep 5] ++ EvGet 5 (document_url me "A1" 1)
              :: drop 2 (since w0 (get_documents E0 me [1; 0]%nat
                                     [("A1", "./out"); ("A2", "./out")] w0).2))
    as H by (vm_compute; reflexivity).
  split; [exact H|].
  destruct (batch_sleeps_before_first_request E0 me [1; 0]%nat w0) as [_ Hdocs].
  exact (Hdocs _ _ _ _ _ H).
Defined.






(** ** The daily metadata driver *)

(** What one completed fetch of the script adds to [df]. *)
Lemma get_doc_json_accumulates (E : environ) (self : Edinet) (date : string)
    (o : listing_outcome) (df : table) (w : world) :
  listing_outcome_of (remote E (listing_url self date)) = Some o →
  ∃ v, (get_doc_json E self (Some date) false w).1 = Ok v ∧
       accumulate df v = df ++ spec_combined_table [o].
Proof.
  unfold listing_outcome_of. run_sync. cbn.
  destruct (remote E _) as [msg|st [msg|c d]]; [done..|]. cbn.
  rewrite andb_false_r.
  destruct (st =? 404)%Z.
  - intros [= <-]. cbn. eexists. split; [done|]. cbn. by rewrite app_nil_r.
  - destruct d as [| |[rows|]]; [done..| |]; cbn.
    + destruct (bool_decide (TSV_PATH ∈ dirs w)) eqn:Hd; cbn;
        rewrite ?Hd, ?dir_created; cbn;
        (destruct rows as [|row rows]; intros [= <-]; cbn;
         eexists; (split; [done|]); cbn; by rewrite ?app_nil_r).
    + intros [= <-].
      destruct (bool_decide (TSV_PATH ∈ dirs w)); cbn;
        eexists; (split; [done|]); cbn; by rewrite app_nil_r.
Qed.

Lemma spec_combined_table_cons (o : listing_outcome) (outs : list listing_outcome) :
  spec_combined_table (o :: outs)
  = spec_combined_table [o] ++ spec_combined_table outs.
Proof. destruct o; cbn; by rewrite ?app_nil_r. Qed.

Lemma main_loop_spec (E : environ) (self : Edinet) (n : nat) :
  ∀ (start_date end_date : Z) (fuel : nat) (df : table) (w : world)
    (outs : list listing_outcome),
    Z.to_nat (end_date - start_date + 1) = n →
    n < fuel →
    Forall2 (fun d o =>
               listing_outcome_of (remote E (listing_url self (strftime d))) = Some o)
            (date_range start_date end_date) outs →
    let r := main_loop fuel E self start_date end_date df w in
    r.1 = Ok (Some (df ++ spec_combined_table outs)) ∧
    run w r.2 (map (fun d => listing_url self (strftime d))
                   (date_range start_date end_date)).
Proof.
  unfold date_range.
  induction n as [|n IH]; intros start_date end_date fuel df w outs Hn Hfuel Houts;
    (destruct fuel as [|fuel]; [lia|]); cbn [main_loop].
  - assert (end_date - start_date + 1 ≤ 0)%Z as Hle by lia.
    destruct (Z.leb_spec start_date end_date) as [|_]; [lia|].
    rewrite seqZ_nil in Houts |- * by lia.
    apply Forall2_nil_inv_l in Houts as ->. cbn.
    split; [by rewrite app_nil_r | apply run_refl].
  - assert (0 < end_date - start_date + 1)%Z as Hpos by lia.
    destruct (Z.leb_spec start_date end_date) as [_|]; [|lia].
    rewrite seqZ_cons in Houts |- * by lia.
    replace (Z.pred (end_date - start_date + 1))
      with (end_date - Z.succ start_date + 1)%Z in * by lia.
    apply Forall2_cons_inv_l in Houts as (o & outs' & Ho & Houts & ->).
    destruct (get_doc_json_accumulates E self (strftime start_date) o df w Ho)
      as (v & Hv & Hacc).
    pose proof (get_doc_json_run E self (Some (strftime start_date)) false w) as Hrun.
    unfold bind.
    destruct (get_doc_json E self (Some (strftime start_date)) false w) as [res w1].
    cbn [fst snd default] in *. subst res.
    replace (start_date + 1)%Z with (Z.succ start_date) by lia.
    destruct (IH (Z.succ start_date) end_date fuel (accumulate df v) w1 outs')
      as [Hres Hrun']; [lia | lia | done |].
    split.
    + rewrite Hres, (spec_combined_table_cons o outs'), Hacc.
      by rewrite app_assoc.
    + cbn [map]. apply (run_trans _ _ _ [_] _ Hrun Hrun').
Qed.



(** Without a key path the constructor cannot fail. *)
Lemma init_without_path (E : environ) (w : world) :
  ∃ self w1, init E None w = (Ok self, w1) ∧ key_path self = None.
Proof.
  unfold init. destruct (truthy _); cbn; eauto.
Qed.

(** X15: The script as a whole: the 181 dates that end today, and the combined
    table written to [document_list.tsv]. *)
Lemma main_writes_combined_table (E : environ) (fuel : nat) (w w1 : world)
    (self : Edinet) (outs : list listing_outcome) :
  181 < fuel →
  init E None w = (Ok self, w1) →
  Forall2 (fun d o =>
             listing_outcome_of (remote E (listing_url self (strftime d))) = Some o)
          (date_range (today E - 180) (today E)) outs →
  let r := main fuel E w in
  r.1 = Ok (Some (spec_combined_table outs)) ∧
  length outs = 181 ∧
  files r.2 !! "document_list.tsv" = Some (FTsv (spec_combined_table outs)).
Proof.
  intros Hfuel Hinit Houts r. subst r. unfold main, bind. rewrite Hinit.
  assert (Z.to_nat (today E - (today E - 180) + 1) = 181) as Hn by lia.
  destruct (main_loop_spec E self 181 (today E - 180) (today E) fuel [] w1 outs
              Hn Hfuel Houts) as [Hres _].
  destruct (main_loop fuel E self (today E - 180) (today E) [] w1) as [res w2].
  cbn [fst snd] in *. subst res. cbn.
  split; [done|]. split.
  - apply Forall2_length in Houts. rewrite <- Houts.
    unfold date_range. rewrite length_seqZ. lia.
  - apply lookup_insert_eq.
Qed.

(** The sibling of [get_doc_json] in the [try] block: nothing escapes
    [async_get_doc_json], and no file is written when the connection fails,
    the body cannot be read, or the body does not decode to an object. *)
Lemma async_get_doc_json_catches (E : environ) (self : Edinet)
    (date : string) (w : world) :
  (async_get_doc_json E self (Some date) w).1 = Ok PyNone ∧
  (∀ r, remote E (listing_url self date) = r →
     match r with
     | NetFail _ | Response _ (ReadFail _)
     | Response _ (Payload _ NotJson) | Response _ (Payload _ JsonNonObject) =>
         files (async_get_doc_json E self (Some date) w).2 = files w
     | _ => True
     end).
Proof.
  split.
  - run_async. cbn.
    destruct (remote E _) as [msg|st [msg|c [| |[rows|]]]]; cbn; try done.
    rewrite dir_created. done.
  - intros r Hr. run_async. cbn. rewrite Hr.
    by destruct r as [msg|st [msg|c [| |[rows|]]]].
Qed.

(** With the variable set, a key file on disk is neither read nor needed. *)
Lemma init_credential_precedence_witness :
  init E1 (Some "key.json") w_key
  = (Ok (MkEdinet (KeyStr "k") (Some "key.json")), w_key).
Proof.
  destruct (init_credential_precedence E1 (Some "key.json") w_key) as [H _].
  apply (H "k"); [reflexivity | discriminate].
Defined.

(** * Further properties *)

(** ** What one resumption does to the disk *)

Lemma frame_of_url (E : environ) (self : Edinet) (j : job) :
  doc_url (frame_of E self j) = job_url E self j.
Proof. by destruct j. Qed.

(** Simplifies without expanding the builders of targets and paths. *)
Ltac cbn_paths :=
  cbn -[strftime listing_url document_url listing_file path_join].

Tactic Notation "cbn_paths" "in" "*" :=
  cbn -[strftime listing_url document_url listing_file path_join] in *.

Lemma resume_disk (E : environ) (self : Edinet) (t : task) (w : world) :
  consistent E self w t →
  let t' := (resume E self t w).1 in
  let w' := (resume E self t w).2 in
  consistent E self w' t' ∧
  dirs w' = (if decide (rank t = 3)
             then {[save_dir (frame_of E self (task_job t))]} ∪ dirs w
             else dirs w) ∧
  files w' = (if decide (rank t = 0) then files w
              else match wrote E self t' with
                   | Some d => <[save_path E self (task_job t) := d]> (files w)
                   | None => files w
                   end) ∧
  (rank t = 0 → t' = t).
Proof.
  destruct t as [j s].
  unfold consistent, resume, rank, wrote, stored, save_path.
  cbn [task_job task_state].
  destruct s as [|fr|fr body|r].
  - intros _. destruct j as [date|doc_id target_dir doc_type]; cbn_paths;
      repeat case_decide; try lia; repeat split; try done; set_solver.
  - intros [-> Hdir]. rewrite <- frame_of_url.
    destruct (remote E (doc_url (frame_of E self j))) as [msg|st body] eqn:Hr;
      cbn_paths; rewrite ?Hr; repeat case_decide; try lia;
      repeat split; try done.
    by exists st.
  - intros (-> & Hdir & st & Hr).
    destruct body as [msg|c d]; cbn_paths;
      [rewrite <- ?frame_of_url, ?Hr;
       repeat case_decide; try lia; repeat split; try done; by exists st|].
    unfold after_read, write_in, get_results, bind, ret, raise.
    destruct j as [date|doc_id target_dir doc_type];
      [destruct d as [| |[rows|]]|]; cbn_paths in *;
      rewrite ?(bool_decide_eq_true_2 _ Hdir); cbn_paths;
      rewrite ?Hr; cbn_paths;
      repeat case_decide; try lia; repeat split; done.
  - intros _. cbn_paths. repeat case_decide; try lia; repeat split; done.
Qed.

Lemma consistent_mono (E : environ) (self : Edinet) (w w' : world) (t : task) :
  dirs w ⊆ dirs w' → consistent E self w t → consistent E self w' t.
Proof.
  unfold consistent. intros Hsub.
  destruct (task_state t); [done| | |done].
  - intros [? ?]. split; [done | by apply Hsub].
  - intros (? & ? & ?). split; [done|]. split; [by apply Hsub | done].
Qed.

Lemma wrote_stored (E : environ) (self : Edinet) (t : task) (d : file_data) :
  wrote E self t = Some d → stored E self (task_job t) = Some d.
Proof. unfold wrote. by destruct (task_state t). Qed.

Lemma wrote_unfinished (E : environ) (self : Edinet) (t : task) :
  rank t ≠ 0 → wrote E self t = None.
Proof. unfold wrote, rank. by destruct (task_state t). Qed.

Lemma wrote_finished (E : environ) (self : Edinet) (t : task) (r : pyval) :
  task_state t = Finished r → wrote E self t = stored E self (task_job t).
Proof. unfold wrote. by intros ->. Qed.

(** ** The invariant of the event loop *)

Lemma rank_le_3 (t : task) : rank t ≤ 3.
Proof. unfold rank. destruct (task_state t); lia. Qed.

Lemma insert_members {A} (l : list A) (i : nat) (x y : A) :
  l !! i = Some x →
  y ∈ <[i := y]> l ∧
  (∀ z, z ∈ <[i := y]> l → z = y ∨ z ∈ l) ∧
  (∀ z, z ∈ l → z = x ∨ z ∈ <[i := y]> l).
Proof.
  intros Hi. assert (i < length l) as Hlt by (by eapply lookup_lt_Some).
  split; [by apply list_elem_of_insert|]. split.
  - intros z [j Hj]%list_elem_of_lookup_1.
    apply list_lookup_insert_Some in Hj as [(_ & -> & _)|[_ Hj]]; [by left|].
    right. by eapply list_elem_of_lookup_2.
  - intros z [j Hj]%list_elem_of_lookup_1.
    destruct (decide (i = j)) as [->|Hne]; [left; congruence|].
    right. apply (list_elem_of_lookup_2 _ j).
    by rewrite list_lookup_insert_ne.
Qed.

Lemma resume_at_inv (E : environ) (self : Edinet) (jobs : list job)
    (F0 : gmap string file_data) (D0 : gset string) (i : nat)
    (ts : list task) (w : world) :
  no_conflict E self jobs →
  loop_inv E self jobs F0 D0 ts w →
  loop_inv E self jobs F0 D0 (resume_at E self i ts w).1 (resume_at E self i ts w).2.
Proof.
  intros Hnc (Hjobs & Hcons & Hwr & Hfr & Hdirs). unfold resume_at.
  destruct (ts !! i) as [t|] eqn:Hi; [|done].
  assert (consistent E self w t) as Hct by (by eapply Forall_lookup_1).
  destruct (resume_disk E self t w Hct) as (Hct' & Hd' & Hf' & Hfin).
  destruct (resume_spec E self t w) as (Hj' & Hrk & _).
  pose proof (rank_le_3 t) as Hle3.
  destruct (resume E self t w) as [t' w']. cbn [fst snd] in *.
  destruct (insert_members ts i t t' Hi) as (Hin' & Hnew & Hold).
  assert (t ∈ ts) as Hint by (by eapply list_elem_of_lookup_2).
  assert (∀ t0, t0 ∈ ts → task_job t0 ∈ jobs) as Hmem.
  { intros t0 Ht0. rewrite <- Hjobs. by apply (list_elem_of_fmap_2 task_job). }
  assert (dirs w ⊆ dirs w') as Hsub.
  { rewrite Hd'. destruct (decide (rank t = 3)); [apply union_subseteq_r | done]. }
  split; [|split; [|split; [|split]]].
  - rewrite <- Hjobs. change map with (@fmap list _) in *.
    rewrite list_fmap_insert, Hj'.
    apply list_insert_id. by rewrite list_lookup_fmap, Hi.
  - apply Forall_insert; [|done].
    eapply Forall_impl; [exact Hcons|]. intros t0. by apply consistent_mono.
  - intros t0 d Ht0 Hw0. rewrite Hf'.
    destruct (decide (rank t = 0)) as [Hz|Hnz].
    { apply Hwr; [|done]. apply Hnew in Ht0 as [->|Ht0]; [|done].
      by rewrite (Hfin Hz). }
    destruct (wrote E self t') as [d'|] eqn:Hw'.
    + apply Hnew in Ht0 as [->|Ht0].
      * rewrite Hj'. simplify_eq. apply lookup_insert_eq.
      * destruct (decide (save_path E self (task_job t)
                          = save_path E self (task_job t0))) as [Heq|Hne].
        -- rewrite <- Heq, lookup_insert_eq. f_equal.
           apply (Hnc (task_job t) (task_job t0)); auto.
           ++ rewrite <- Hj'. by apply wrote_stored.
           ++ by apply wrote_stored.
        -- rewrite lookup_insert_ne by done. by apply Hwr.
    + apply Hnew in Ht0 as [->|Ht0]; [congruence | by apply Hwr].
  - intros p Hp.
    assert (files w !! p = F0 !! p) as <-.
    { apply Hfr. intros t0 Ht0 Hp0.
      apply Hold in Ht0 as [->|Ht0]; [|by apply Hp].
      destruct (decide (rank t = 0)) as [Hz|Hnz]; [|by apply wrote_unfinished].
      rewrite <- (Hfin Hz). apply Hp; [done|]. by rewrite (Hfin Hz). }
    rewrite Hf'. case_decide; [done|].
    destruct (wrote E self t') as [d'|] eqn:Hw'; [|done].
    apply lookup_insert_ne. intros Heq.
    rewrite (Hp t' Hin') in Hw'; [done|]. by rewrite Hj'.
  - intros d. split.
    + intros Hd. rewrite Hd' in Hd.
      assert (d = save_dir (frame_of E self (task_job t)) ∧ rank t = 3 ∨ d ∈ dirs w)
        as [[-> H3]|Hdw].
      { destruct (decide (rank t = 3)); [|by right].
        apply elem_of_union in Hd as [->%elem_of_singleton|Hd]; [by left | by right]. }
      * right. exists t'. split; [done|]. split; [lia | by rewrite Hj'].
      * apply Hdirs in Hdw as [?|(t0 & Ht0 & Hr0 & Hd0)]; [by left|]. right.
        apply Hold in Ht0 as [->|Ht0]; [|by exists t0].
        exists t'. split; [done|]. split; [lia | by rewrite Hj'].
    + intros [Hd|(t0 & Ht0 & Hr0 & Hd0)].
      * apply Hsub, Hdirs. by left.
      * apply Hnew in Ht0 as [->|Ht0].
        -- rewrite Hj' in Hd0. rewrite Hd'. destruct (decide (rank t = 3)).
           ++ apply elem_of_union. left. by apply elem_of_singleton.
           ++ apply Hdirs. right. by exists t.
        -- apply Hsub, Hdirs. right. by exists t0.
Qed.

Lemma run_schedule_inv (E : environ) (self : Edinet) (jobs : list job)
    (F0 : gmap string file_data) (D0 : gset string) (sched : list nat)
    (ts : list task) (w : world) :
  no_conflict E self jobs →
  loop_inv E self jobs F0 D0 ts w →
  loop_inv E self jobs F0 D0
    (run_schedule E self sched ts w).1 (run_schedule E self sched ts w).2.
Proof.
  intros Hnc. revert ts w.
  induction sched as [|i sched IH]; intros ts w Hinv; cbn [run_schedule]; [done|].
  pose proof (resume_at_inv E self jobs F0 D0 i ts w Hnc Hinv) as Hstep.
  destruct (resume_at E self i ts w) as [ts1 w1]. by apply IH.
Qed.

Lemma run_schedule_app (E : environ) (self : Edinet) (s1 s2 : list nat)
    (ts : list task) (w : world) :
  run_schedule E self (s1 ++ s2) ts w
  = run_schedule E self s2 (run_schedule E self s1 ts w).1
                           (run_schedule E self s1 ts w).2.
Proof.
  revert ts w. induction s1 as [|i s1 IH]; intros ts w; cbn; [done|].
  destruct (resume_at E self i ts w) as [ts1 w1]. apply IH.
Qed.

(** ** The start and the completion are schedules too *)

Lemma resume_at_middle (E : environ) (self : Edinet) (pre post : list task)
    (t : task) (w : world) :
  resume_at E self (length pre) (pre ++ t :: post) w
  = (pre ++ (resume E self t w).1 :: post, (resume E self t w).2).
Proof.
  unfold resume_at. rewrite list_lookup_middle by done.
  destruct (resume E self t w) as [t' w']. cbn [fst snd].
  by rewrite insert_app_r_alt, Nat.sub_diag by lia.
Qed.

Lemma start_all_as_schedule (E : environ) (self : Edinet) (ts : list task) :
  ∀ (pre : list task) (w : world),
    run_schedule E self (seq (length pre) (length ts)) (pre ++ ts) w
    = (pre ++ (start_all E self ts w).1, (start_all E self ts w).2).
Proof.
  induction ts as [|t ts IH]; intros pre w; cbn [length seq run_schedule start_all].
  - done.
  - rewrite resume_at_middle.
    destruct (resume E self t w) as [t' w1]. cbn [fst snd].
    specialize (IH (pre ++ [t']) w1).
    rewrite length_app, Nat.add_1_r, <- app_assoc in IH. cbn [app] in IH.
    rewrite IH. destruct (start_all E self ts w1) as [ts' w2]. cbn [fst snd].
    by rewrite <- app_assoc.
Qed.

Lemma drain_as_schedule (E : environ) (self : Edinet) (ts : list task) :
  ∀ (pre : list task) (w : world),
    run_schedule E self (thrice (length pre) (length ts)) (pre ++ ts) w
    = (pre ++ (drain E self ts w).1, (drain E self ts w).2).
Proof.
  unfold thrice.
  induction ts as [|t ts IH]; intros pre w;
    cbn [length seq flat_map app run_schedule drain].
  - done.
  - rewrite resume_at_middle.
    destruct (resume E self t w) as [t1 w1]. cbn [fst snd].
    rewrite resume_at_middle.
    destruct (resume E self t1 w1) as [t2 w2]. cbn [fst snd].
    rewrite resume_at_middle.
    destruct (resume E self t2 w2) as [t3 w3]. cbn [fst snd].
    specialize (IH (pre ++ [t3]) w3).
    rewrite length_app, Nat.add_1_r, <- app_assoc in IH. cbn [app] in IH.
    rewrite IH. destruct (drain E self ts w3) as [ts' w4]. cbn [fst snd].
    by rewrite <- app_assoc.
Qed.

Lemma start_all_length (E : environ) (self : Edinet) (ts : list task) (w : world) :
  length (start_all E self ts w).1 = length ts.
Proof.
  revert w. induction ts as [|t ts IH]; intros w; cbn; [done|].
  destruct (resume E self t w) as [t' w1]. specialize (IH w1).
  destruct (start_all E self ts w1). cbn in *. by rewrite IH.
Qed.

Lemma run_schedule_length (E : environ) (self : Edinet) (sched : list nat)
    (ts : list task) (w : world) :
  length (run_schedule E self sched ts w).1 = length ts.
Proof.
  revert ts w. induction sched as [|i sched IH]; intros ts w; cbn; [done|].
  unfold resume_at. destruct (ts !! i) as [t|]; [|apply IH].
  destruct (resume E self t w) as [t' w1]. by rewrite IH, length_insert.
Qed.

(** A whole run of [gather] is the run of one schedule. *)
Lemma run_tasks_as_schedule (E : environ) (self : Edinet) (sched : list nat)
    (ts : list task) (w : world) :
  run_tasks E self sched ts w
  = run_schedule E self
      (seq 0 (length ts) ++ sched ++ thrice 0 (length ts)) ts w.
Proof.
  unfold run_tasks. rewrite !run_schedule_app.
  pose proof (start_all_as_schedule E self ts [] w) as Hs. cbn in Hs.
  rewrite Hs. pose proof (start_all_length E self ts w) as Hl1.
  destruct (start_all E self ts w) as [ts1 w1]. cbn [fst snd] in *.
  pose proof (run_schedule_length E self sched ts1 w1) as Hl2.
  destruct (run_schedule E self sched ts1 w1) as [ts2 w2]. cbn [fst snd] in *.
  pose proof (drain_as_schedule E self ts2 [] w2) as Hd. cbn in Hd.
  rewrite <- Hl1, <- Hl2, Hd. by destruct (drain E self ts2 w2).
Qed.

(** ** The disk after a batch *)

Lemma loop_inv_init (E : environ) (self : Edinet) (jobs : list job) (w : world) :
  loop_inv E self jobs (files w) (dirs w)
           (map (fun j => MkTask j NotStarted) jobs) w.
Proof.
  split; [|split; [|split; [|split]]].
  - rewrite map_map. cbn. apply map_id.
  - apply Forall_forall. intros t [j [-> _]]%(list_elem_of_fmap_1 _). done.
  - intros t d [j [-> _]]%(list_elem_of_fmap_1 _). done.
  - done.
  - intros d. split; [by left|].
    intros [?|(t & [j [-> _]]%(list_elem_of_fmap_1 _) & Hr & _)]; [done|].
    by destruct Hr.
Qed.

Lemma batch_disk_writer (E : environ) (self : Edinet) (jobs : list job)
    (base : gmap string file_data) (j : job) (d : file_data) :
  no_conflict E self jobs → j ∈ jobs → stored E self j = Some d →
  batch_disk E self jobs base !! save_path E self j = Some d.
Proof.
  induction jobs as [|j0 jobs IH]; intros Hnc Hin Hst.
  - by apply elem_of_nil in Hin.
  - assert (no_conflict E self jobs) as Hnc'.
    { intros j1 j2 d1 d2 H1 H2. apply Hnc; by right. }
    cbn. destruct (stored E self j0) as [d0|] eqn:H0.
    + destruct (decide (save_path E self j0 = save_path E self j)) as [Heq|Hne].
      * rewrite Heq, lookup_insert_eq. f_equal.
        apply (Hnc j0 j); [by left | done..].
      * rewrite lookup_insert_ne by done.
        apply elem_of_cons in Hin as [->|Hin]; [done | by apply IH].
    + apply elem_of_cons in Hin as [->|Hin]; [congruence | by apply IH].
Qed.

Lemma batch_disk_frame (E : environ) (self : Edinet) (jobs : list job)
    (base : gmap string file_data) (p : string) :
  (∀ j, j ∈ jobs → save_path E self j = p → stored E self j = None) →
  batch_disk E self jobs base !! p = base !! p.
Proof.
  induction jobs as [|j0 jobs IH]; intros Hp; [done|]. cbn.
  assert (batch_disk E self jobs base !! p = base !! p) as <-.
  { apply IH. intros j Hj. apply Hp. by right. }
  destruct (stored E self j0) as [d0|] eqn:H0; [|done].
  apply lookup_insert_ne. intros Heq.
  rewrite (Hp j0) in H0; [done | by left | done].
Qed.

Lemma batch_dirs_spec (E : environ) (self : Edinet) (jobs : list job)
    (base : gset string) (d : string) :
  d ∈ batch_dirs E self jobs base ↔
  d ∈ base ∨ ∃ j, j ∈ jobs ∧ save_dir (frame_of E self j) = d.
Proof.
  induction jobs as [|j0 jobs IH]; cbn.
  - split; [by left|]. intros [?|(j & Hj & _)]; [done|].
    by apply elem_of_nil in Hj.
  - rewrite elem_of_union, elem_of_singleton, IH. split.
    + intros [->|[?|(j & Hj & Hd)]].
      * right. exists j0. split; [by left | done].
      * by left.
      * right. exists j. split; [by right | done].
    + intros [?|(j & [->|Hj]%elem_of_cons & Hd)].
      * right. by left.
      * by left.
      * right. right. by exists j.
Qed.

(** Whatever the schedule, a batch without conflicting writers leaves the
    files and the directories its workers would leave one after the other. *)
Lemma run_tasks_disk (E : environ) (self : Edinet) (sched : list nat)
    (jobs : list job) (w : world) :
  no_conflict E self jobs →
  let r := run_tasks E self sched (map (fun j => MkTask j NotStarted) jobs) w in
  files r.2 = batch_disk E self jobs (files w) ∧
  dirs r.2 = batch_dirs E self jobs (dirs w).
Proof.
  intros Hnc r. subst r.
  destruct (run_tasks_spec E self sched jobs w) as (_ & Hfin & _).
  rewrite run_tasks_as_schedule in Hfin |- *.
  set (full := seq 0 _ ++ sched ++ thrice 0 _) in *. clearbody full.
  pose proof (run_schedule_inv E self jobs (files w) (dirs w) full _ w Hnc
                (loop_inv_init E self jobs w)) as Hinv.
  destruct (run_schedule E self full _ w) as [ts w']. cbn [fst snd] in *.
  destruct Hinv as (Hjobs & _ & Hwr & Hfr & Hdirs).
  assert (∀ t, t ∈ ts → wrote E self t = stored E self (task_job t)) as Hdone.
  { intros t Ht. eapply wrote_finished.
    by apply (proj1 (Forall_forall _ _) Hfin). }
  split.
  - apply map_eq. intros p.
    destruct (decide (Exists (fun j => save_path E self j = p ∧
                                       is_Some (stored E self j)) jobs))
      as [Hex|Hno].
    + apply Exists_exists in Hex as (j & Hj & <- & [d Hd]).
      rewrite (batch_disk_writer E self jobs _ j d) by done.
      rewrite <- Hjobs in Hj.
      apply (list_elem_of_fmap_1 task_job) in Hj as (t & -> & Ht).
      apply Hwr; [done|]. by rewrite Hdone.
    + assert (∀ j, j ∈ jobs → save_path E self j = p → stored E self j = None)
        as Hnone.
      { intros j Hj Hp. destruct (stored E self j) as [d|] eqn:Hd; [|done].
        destruct Hno. apply Exists_exists. exists j. eauto. }
      rewrite batch_disk_frame by done. apply Hfr.
      intros t Ht Hp. rewrite Hdone by done. apply Hnone; [|done].
      rewrite <- Hjobs. by apply (list_elem_of_fmap_2 task_job).
  - apply set_eq. intros d. rewrite Hdirs, batch_dirs_spec.
    split; (intros [?|Hd]; [by left|right]).
    + destruct Hd as (t & Ht & _ & Hd). exists (task_job t). split; [|done].
      rewrite <- Hjobs. by apply (list_elem_of_fmap_2 task_job).
    + destruct Hd as (j & Hj & Hd). rewrite <- Hjobs in Hj.
      apply (list_elem_of_fmap_1 task_job) in Hj as (t & -> & Ht).
      exists t. split; [done|]. split; [|done].
      apply (proj1 (Forall_forall _ _) Hfin) in Ht. unfold rank. by rewrite Ht.
Qed.

(** The world a batch function leaves is that of its [gather]. *)
Lemma batch_world (E : environ) (self : Edinet) (sched : list nat)
    (jobs : list job) (d : Z) (w : world) :
  (0 ≤ d)%Z →
  ((time_sleep d;; let* _ := gather E self sched jobs in ret PyNone) w).2
  = (run_tasks E self sched (map (fun j => MkTask j NotStarted) jobs)
       (advance d (emit (EvSleep d) w))).2.
Proof.
  intros Hd. unfold bind, time_sleep, gather, ret, effect.
  destruct (Z.ltb_spec d 0) as [|_]; [lia|].
  by destruct (run_tasks E self sched _ _).
Qed.

Lemma batch_disk_idem (E : environ) (self : Edinet) (jobs : list job)
    (base : gmap string file_data) :
  no_conflict E self jobs →
  batch_disk E self jobs (batch_disk E self jobs base) = batch_disk E self jobs base.
Proof.
  intros Hnc. apply map_eq. intros p.
  destruct (decide (Exists (fun j => save_path E self j = p ∧
                                     is_Some (stored E self j)) jobs))
    as [Hex|Hno].
  - apply Exists_exists in Hex as (j & Hj & <- & [d Hd]).
    by rewrite !(batch_disk_writer E self jobs _ j d).
  - assert (∀ j, j ∈ jobs → save_path E self j = p → stored E self j = None)
      as Hnone.
    { intros j Hj Hp. destruct (stored E self j) as [d|] eqn:Hd; [|done].
      destruct Hno. apply Exists_exists. exists j. eauto. }
    by rewrite !batch_disk_frame.
Qed.

Lemma batch_dirs_idem (E : environ) (self : Edinet) (jobs : list job)
    (base : gset string) :
  batch_dirs E self jobs (batch_dirs E self jobs base) = batch_dirs E self jobs base.
Proof.
  apply set_eq. intros d. rewrite !batch_dirs_spec. tauto.
Qed.

(** ** Destinations *)

Lemma string_length_app (s1 s2 : string) :
  String.length (s1 +:+ s2) = String.length s1 + String.length s2.
Proof. induction s1 as [|a s1 IH]; [done|]. simpl. by f_equal. Qed.

Lemma string_app_inv_r (s1 s2 t : string) : s1 +:+ t = s2 +:+ t → s1 = s2.
Proof.
  revert s2. induction s1 as [|a s1 IH]; intros [|b s2] H.
  - done.
  - apply (f_equal String.length) in H.
    rewrite !string_length_app in H. cbn in H. lia.
  - apply (f_equal String.length) in H.
    rewrite !string_length_app in H. cbn in H. lia.
  - cbn in H. injection H as -> H. f_equal. by apply IH.
Qed.

(** The listing file determines the date. *)
Lemma listing_path_inj (d1 d2 : string) :
  path_join TSV_PATH (listing_file d1) = path_join TSV_PATH (listing_file d2) →
  d1 = d2.
Proof.
  unfold path_join, listing_file. intros H.
  apply (inj (String.app TSV_PATH)) in H.
  apply (inj (String.app "/")) in H.
  apply (inj (String.app "document_list_")) in H.
  by apply string_app_inv_r in H.
Qed.

Lemma NoDup_fmap_inj_on {A B} (f : A → B) (l : list A) (x y : A) :
  NoDup (f <$> l) → x ∈ l → y ∈ l → f x = f y → x = y.
Proof.
  induction l as [|a l IH]; intros Hnd Hx Hy Hf.
  - by apply elem_of_nil in Hx.
  - rewrite fmap_cons in Hnd. apply NoDup_cons in Hnd as [Ha Hnd].
    apply elem_of_cons in Hx as [->|Hx]; apply elem_of_cons in Hy as [->|Hy].
    + done.
    + destruct Ha. rewrite Hf. by apply list_elem_of_fmap_2.
    + destruct Ha. rewrite <- Hf. by apply list_elem_of_fmap_2.
    + by apply IH.
Qed.

(** The jobs of the two batch functions. *)
Lemma documents_no_conflict (E : environ) (self : Edinet)
    (doc_ids : list (string * string)) :
  NoDup (map destination doc_ids) →
  no_conflict E self
    (map (fun item : string * string => DocumentJob item.1 item.2 1) doc_ids).
Proof.
  intros Hnd j1 j2 d1 d2 Hj1 Hj2 Hp H1 H2.
  apply (list_elem_of_fmap_1 _) in Hj1 as (i1 & -> & Hi1).
  apply (list_elem_of_fmap_1 _) in Hj2 as (i2 & -> & Hi2).
  assert (i1 = i2) as -> by (by apply (NoDup_fmap_inj_on destination doc_ids)).
  congruence.
Qed.

Lemma listings_no_conflict (E : environ) (self : Edinet) (dates : list string) :
  no_conflict E self (map (fun item => ListingJob (Some item)) dates).
Proof.
  intros j1 j2 d1 d2 Hj1 Hj2 Hp H1 H2.
  apply (list_elem_of_fmap_1 _) in Hj1 as (i1 & -> & Hi1).
  apply (list_elem_of_fmap_1 _) in Hj2 as (i2 & -> & Hi2).
  change (path_join TSV_PATH (listing_file i1)
          = path_join TSV_PATH (listing_file i2)) in Hp.
  apply listing_path_inj in Hp as ->. congruence.
Qed.

(** ** What the documents batch leaves on disk *)



(** X2: The order in which the replies arrive has no effect on what the
    documents batch leaves on disk, as long as no two entries share a
    destination. *)
Theorem get_documents_order_independent (E : environ) (self : Edinet)
    (sched1 sched2 : list nat) (doc_ids : list (string * string)) (w : world) :
  NoDup (map destination doc_ids) →
  files (get_documents E self sched1 doc_ids w).2
  = files (get_documents E self sched2 doc_ids w).2 ∧
  dirs (get_documents E self sched1 doc_ids w).2
  = dirs (get_documents E self sched2 doc_ids w).2.
Proof.
  intros Hnd. unfold get_documents. rewrite !batch_world by lia.
  pose proof (documents_no_conflict E self doc_ids Hnd) as Hnc.
  destruct (run_tasks_disk E self sched1 _ (advance 5 (emit (EvSleep 5) w)) Hnc)
    as [-> ->].
  destruct (run_tasks_disk E self sched2 _ (advance 5 (emit (EvSleep 5) w)) Hnc)
    as [-> ->].
  done.
Qed.

Lemma get_documents_order_independent_witness :
  files (get_documents E0 me [2; 1; 0; 1]%nat
           [("A1", "./out"); ("A2", "./out"); ("A3", "./out")] w0).2
  = files (get_documents E0 me [0; 0; 1; 2]%nat
             [("A1", "./out"); ("A2", "./out"); ("A3", "./out")] w0).2.
Proof.
  apply (get_documents_order_independent E0 me [2; 1; 0; 1]%nat [0; 0; 1; 2]%nat
           [("A1", "./out"); ("A2", "./out"); ("A3", "./out")] w0).
  compute_done.
Defined.

(** X3: For the listings batch no condition is needed: whatever the dates, the
    delay and the order in which the replies arrive, the same files and
    directories are left. *)
Theorem async_get_docs_order_independent (E : environ) (self : Edinet)
    (sched1 sched2 : list nat) (dates : list string) (sleep_time : Z) (w : world) :
  files (async_get_docs E self sched1 dates sleep_time w).2
  = files (async_get_docs E self sched2 dates sleep_time w).2 ∧
  dirs (async_get_docs E self sched1 dates sleep_time w).2
  = dirs (async_get_docs E self sched2 dates sleep_time w).2.
Proof.
  destruct (Z.ltb_spec sleep_time 0) as [Hneg|Hpos].
  - unfold async_get_docs, bind, time_sleep, raise.
    destruct (Z.ltb_spec sleep_time 0) as [_|]; [done | lia].
  - unfold async_get_docs. rewrite !batch_world by done.
    pose proof (listings_no_conflict E self dates) as Hnc.
    destruct (run_tasks_disk E self sched1 _
                (advance sleep_time (emit (EvSleep sleep_time) w)) Hnc) as [-> ->].
    destruct (run_tasks_disk E self sched2 _
                (advance sleep_time (emit (EvSleep sleep_time) w)) Hnc) as [-> ->].
    done.
Qed.

(** X4: Running the documents batch again, with whatever arrival order,
    changes no file and no directory: files are overwritten with the same
    contents, not duplicated. *)
Theorem get_documents_idempotent (E : environ) (self : Edinet)
    (sched1 sched2 : list nat) (doc_ids : list (string * string)) (w : world) :
  NoDup (map destination doc_ids) →
  let w1 := (get_documents E self sched1 doc_ids w).2 in
  let w2 := (get_documents E self sched2 doc_ids w1).2 in
  files w2 = files w1 ∧ dirs w2 = dirs w1.
Proof.
  intros Hnd w1 w2. subst w1 w2. unfold get_documents.
  rewrite !batch_world by lia.
  pose proof (documents_no_conflict E self doc_ids Hnd) as Hnc.
  set (mk := fun item : string * string => DocumentJob item.1 item.2 1) in *.
  destruct (run_tasks_disk E self sched1 (map mk doc_ids)
              (advance 5 (emit (EvSleep 5) w)) Hnc) as [Hf1 Hd1].
  set (w1 := (run_tasks E self sched1 _ (advance 5 (emit (EvSleep 5) w))).2) in *.
  destruct (run_tasks_disk E self sched2 (map mk doc_ids)
              (advance 5 (emit (EvSleep 5) w1)) Hnc) as [Hf2 Hd2].
  rewrite Hf2, Hd2. cbn [files dirs advance emit]. rewrite Hf1, Hd1.
  split; [by apply batch_disk_idem | apply batch_dirs_idem].
Qed.

Lemma get_documents_idempotent_witness :
  files (get_documents E0 me [1; 0]%nat [("A1", "./out"); ("A2", "./out")]
           (get_documents E0 me [0; 1]%nat [("A1", "./out"); ("A2", "./out")] w0).2).2
  = files (get_documents E0 me [0; 1]%nat [("A1", "./out"); ("A2", "./out")] w0).2.
Proof.
  apply (get_documents_idempotent E0 me [0; 1]%nat [1; 0]%nat
           [("A1", "./out"); ("A2", "./out")] w0).
  compute_done.
Defined.

(** ** What the listings batch leaves on disk *)



(** ** The listing worker and the disk *)

(** Runs [get_doc_json] on each kind of reply, targets and paths folded. *)
Ltac listing_unfold :=
  unfold get_doc_json, get_doc_json_rest, requests_get, ret_json, get_results,
    write_in, write_cwd, print, print_err, mkdir, isdir, effect, bind, ret, raise;
  cbn_paths.

Ltac listing_cases E :=
  listing_unfold;
  destruct (remote E _) as [?msg|?st [?msg|?c ?d]]; cbn_paths.

Lemma replace_nan_clean (df : table) :
  Forall (Forall (fun kv : string * cell => kv.2 ≠ CNaN)) (replace_nan df).
Proof.
  unfold replace_nan. apply Forall_forall.
  intros r (r0 & -> & _)%(list_elem_of_fmap_1 _). apply Forall_forall.
  intros kv (kv0 & -> & _)%(list_elem_of_fmap_1 _).
  by destruct kv0 as [k []].
Qed.

(** X6: Whenever [get_doc_json] returns a table, the listing file of that date
    has just been written with the records as received, the table has one
    row per record of the file, no cell of it is NaN, and [./tsv] exists. *)
Theorem get_doc_json_table_matches_file (E : environ) (self : Edinet)
    (date : option string) (output : bool) (w : world) (t : table) :
  (get_doc_json E self date output w).1 = Ok (PyFrame t) →
  let w' := (get_doc_json E self date output w).2 in
  let day := default (strftime (today E)) date in
  ∃ rows,
    files w' !! path_join TSV_PATH (listing_file day) = Some (FTsv rows) ∧
    t = replace_nan rows ∧
    length t = length rows ∧
    Forall (Forall (fun kv : string * cell => kv.2 ≠ CNaN)) t ∧
    TSV_PATH ∈ dirs w'.
Proof.
  assert (∀ rows, length (replace_nan rows) = length rows) as Hlen
    by (intros rows; apply length_map).
  listing_cases E; try done.
  destruct (st =? 200)%Z, output, (st =? 404)%Z, d as [| |[rows|]];
    cbn_paths; try done;
    destruct (bool_decide (TSV_PATH ∈ dirs w)) eqn:Hd; cbn_paths;
    rewrite ?Hd, ?dir_created; cbn_paths; try done;
    intros [= <-]; exists rows;
    (split; [apply lookup_insert_eq|]); (split; [done|]);
    (split; [apply Hlen|]); (split; [apply replace_nan_clean|]);
    first [ by apply bool_decide_eq_true in Hd
          | apply elem_of_union; left; by apply elem_of_singleton ].
Qed.

Lemma get_doc_json_table_matches_file_witness :
  ∃ rows,
    files (get_doc_json E0 me (Some "2024-01-10") false w0).2
      !! "./tsv/document_list_2024-01-10.tsv.gz" = Some (FTsv rows) ∧
    replace_nan [row_of "S1"; row_of "S2"] = replace_nan rows.
Proof.
  destruct (get_doc_json_table_matches_file E0 me (Some "2024-01-10") false w0
              (replace_nan [row_of "S1"; row_of "S2"]) eq_refl)
    as (rows & Hfile & Ht & _).
  exists rows. split; [exact Hfile | exact Ht].
Defined.

Lemma dump_is_not_listing (d1 d2 : string) :
  dump_file d1 ≠ path_join TSV_PATH (listing_file d2).
Proof. discriminate. Qed.

(** A fetch of the script never touches the combined file. *)
Lemma get_doc_json_keeps_combined_file (E : environ) (self : Edinet)
    (date : string) (w : world) :
  files (get_doc_json E self (Some date) false w).2 !! "document_list.tsv"
  = files w !! "document_list.tsv".
Proof.
  listing_cases E; try done.
  rewrite andb_false_r.
  destruct (st =? 404)%Z, d as [| |[rows|]]; cbn_paths; try done;
    destruct (bool_decide (TSV_PATH ∈ dirs w)) eqn:Hd; cbn_paths;
    rewrite ?Hd, ?dir_created; cbn_paths; try done;
    by rewrite lookup_insert_ne by discriminate.
Qed.

(** X7: [get_doc_json] touches no file but the listing file of its date and,
    with [output] set, the dump of its date; without [output] the dump is
    left alone too.  It removes no directory and creates none but [./tsv]. *)
Theorem get_doc_json_touches_only_its_files (E : environ) (self : Edinet)
    (date : option string) (output : bool) (w : world) :
  let w' := (get_doc_json E self date output w).2 in
  let day := default (strftime (today E)) date in
  (∀ p, p ≠ path_join TSV_PATH (listing_file day) →
        (output = true → p ≠ dump_file day) →
        files w' !! p = files w !! p) ∧
  dirs w ⊆ dirs w' ∧
  dirs w' ⊆ {[TSV_PATH]} ∪ dirs w.
Proof.
  unfold dump_file.
  listing_cases E;
    try (split; [done|]; split; [done | apply union_subseteq_r]).
  destruct (st =? 200)%Z, output, (st =? 404)%Z, d as [| |[rows|]];
    cbn_paths;
    try destruct (bool_decide (TSV_PATH ∈ dirs w)) eqn:Hd; cbn_paths;
    rewrite ?Hd, ?dir_created; cbn_paths;
    (split; [intros p Hp Hq;
             rewrite ?lookup_insert_ne
               by (intros Heq; symmetry in Heq;
                   first [by apply Hp | by apply Hq]); done|]);
    (split; [first [done | apply union_subseteq_r]
            | first [done | apply union_subseteq_r]]).
Qed.


Lemma get_doc_json_touches_only_its_files_witness :
  files (get_doc_json E0 me (Some "2024-01-10") false w_dumped).2
    !! dump_file "2024-01-10"
  = files w_dumped !! dump_file "2024-01-10".
Proof.
  destruct (get_doc_json_touches_only_its_files E0 me (Some "2024-01-10") false
              w_dumped) as (Hframe & _).
  apply Hframe; [discriminate | discriminate].
Defined.

(** X8: With [output] set and status 200, a body that is no JSON makes
    [get_doc_json] raise after it has opened the dump for writing: the dump
    of that date is left empty, an earlier one is lost, and no listing file
    is written. *)
Theorem get_doc_json_failed_dump_truncates (E : environ) (self : Edinet)
    (date : string) (c : bytes) (w : world) :
  remote E (listing_url self date) = Response 200 (Payload c NotJson) →
  let r := get_doc_json E self (Some date) true w in
  r.1 = Raise JSONDecodeError ∧
  files r.2 = <[dump_file date := FBytes []]> (files w) ∧
  dirs r.2 = dirs w.
Proof.
  intros Hr. unfold dump_file. listing_unfold. by rewrite Hr.
Qed.

Lemma get_doc_json_failed_dump_truncates_witness :
  files w_dumped !! dump_file "2024-01-10"
  = Some (FJsonDump (JsonObject (Some [row_of "S0"]))) ∧
  files (get_doc_json E_garbled me (Some "2024-01-10") true w_dumped).2
    !! dump_file "2024-01-10" = Some (FBytes []).
Proof.
  split; [reflexivity|].
  destruct (get_doc_json_failed_dump_truncates E_garbled me "2024-01-10"
              [Byte.x3c] w_dumped eq_refl) as (_ & -> & _).
  apply lookup_insert_eq.
Defined.

(** X9: A reply without a result collection, on any status but 404, makes
    [get_doc_json] return [False] and write no listing, yet [./tsv] has been
    created; on 404 it returns [False] before touching the disk at all. *)
Theorem get_doc_json_empty_result_makes_directory (E : environ) (self : Edinet)
    (date : string) (output : bool) (st : Z) (c : bytes) (w : world) :
  remote E (listing_url self date) = Response st (Payload c (JsonObject None)) →
  let r := get_doc_json E self (Some date) output w in
  r.1 = Ok (PyBool false) ∧
  files r.2 !! path_join TSV_PATH (listing_file date)
  = files w !! path_join TSV_PATH (listing_file date) ∧
  (st ≠ 404%Z → dirs r.2 = {[TSV_PATH]} ∪ dirs w) ∧
  (st = 404%Z → dirs r.2 = dirs w ∧ files r.2 = files w).
Proof.
  intros Hr. listing_unfold. rewrite Hr. cbn_paths.
  destruct (Z.eqb_spec st 200) as [H200|H200], output,
    (Z.eqb_spec st 404) as [H404|H404];
    cbn_paths; try lia;
    try destruct (bool_decide (TSV_PATH ∈ dirs w)) eqn:Hd; cbn_paths;
    rewrite ?Hd, ?dir_created; cbn_paths;
    (split; [done|]);
    (split; [by rewrite ?lookup_insert_ne
               by apply (dump_is_not_listing date date)|]);
    (split; [|intros ?; first [lia | done]]);
    intros Hne; try lia; try done;
    symmetry; apply subseteq_union_1_L, singleton_subseteq_l;
    by apply bool_decide_eq_true in Hd.
Qed.

Lemma get_doc_json_empty_result_makes_directory_witness :
  (get_doc_json E0 me (Some "2024-02-31") false w0).1 = Ok (PyBool false) ∧
  dirs (get_doc_json E0 me (Some "2024-02-31") false w0).2 = {[TSV_PATH]} ∪ dirs w0.
Proof.
  destruct (get_doc_json_empty_result_makes_directory E0 me "2024-02-31" false
              400 [] w0 eq_refl) as (Hret & _ & Hdir & _).
  split; [exact Hret | apply Hdir; lia].
Defined.

(** ** The document worker and the disk *)

Ltac document_unfold :=
  unfold get_document, requests_get, write_in, print_err, effect, bind, ret, raise;
  cbn_paths.

(** X10: [get_document] returns [True] exactly when the reply had status 200 and
    its body has been stored under [<target_dir>/<doc_id>.<ext>]; with any
    other result, an exception included, the files are as before.  It never
    creates or removes a directory. *)
Theorem get_document_true_iff_stored (E : environ) (self : Edinet)
    (doc_id : string) (doc_type : Z) (target_dir : string) (w : world) :
  let r := get_document E self doc_id doc_type target_dir w in
  let dest := path_join target_dir (doc_id +:+ "." +:+ extension_of doc_type) in
  dirs r.2 = dirs w ∧
  (r.1 = Ok (PyBool true) →
     ∃ c d, remote E (document_url self doc_id doc_type) = Response 200 (Payload c d) ∧
            files r.2 = <[dest := FBytes c]> (files w)) ∧
  (r.1 ≠ Ok (PyBool true) → files r.2 = files w).
Proof.
  document_unfold.
  destruct (remote E _) as [msg|st [msg|c d]]; cbn_paths; try done.
  destruct (Z.eqb_spec st 200) as [->|Hst]; cbn_paths; [|done].
  destruct (bool_decide (target_dir ∈ dirs w)); cbn_paths; [|done].
  split; [done|]. split; [|done]. intros _. by exists c, d.
Qed.

Lemma get_document_true_iff_stored_witness :
  ∃ c d, remote E0 (document_url me "A1" 1) = Response 200 (Payload c d) ∧
         files (get_document E0 me "A1" 1 "." w0).2
         = <[path_join "." ("A1" +:+ "." +:+ extension_of 1) := FBytes c]> (files w0).
Proof.
  destruct (get_document_true_iff_stored E0 me "A1" 1 "." w0) as (_ & Htrue & _).
  apply Htrue. reflexivity.
Defined.



(** X12: Calling [get_document] again with the same arguments returns the same
    value and leaves the same files and directories: the file is
    overwritten, not duplicated. *)
Theorem get_document_idempotent (E : environ) (self : Edinet)
    (doc_id : string) (doc_type : Z) (target_dir : string) (w : world) :
  let r1 := get_document E self doc_id doc_type target_dir w in
  let r2 := get_document E self doc_id doc_type target_dir r1.2 in
  r2.1 = r1.1 ∧ files r2.2 = files r1.2 ∧ dirs r2.2 = dirs r1.2.
Proof.
  document_unfold.
  destruct (remote E _) as [msg|st [msg|c d]] eqn:Hr; cbn_paths;
    rewrite ?Hr; cbn_paths; try done.
  destruct (Z.eqb_spec st 200) as [->|Hst]; cbn_paths; rewrite ?Hr; cbn_paths.
  - destruct (bool_decide (target_dir ∈ dirs w)) eqn:Hd; cbn_paths;
      rewrite ?Hr; cbn_paths; rewrite ?Hd; cbn_paths; [|done].
    split; [done|]. split; [|done]. apply insert_insert_eq.
  - destruct (Z.eqb_spec st 200) as [|_]; [done|]. done.
Qed.

(** X13: Calling [get_doc_json] again with the same arguments returns the same
    value and leaves the same files and directories, although the first
    call may have created [./tsv] and the second finds it. *)
Theorem get_doc_json_idempotent (E : environ) (self : Edinet)
    (date : option string) (output : bool) (w : world) :
  let r1 := get_doc_json E self date output w in
  let r2 := get_doc_json E self date output r1.2 in
  r2.1 = r1.1 ∧ files r2.2 = files r1.2 ∧ dirs r2.2 = dirs r1.2.
Proof.
  assert (∀ ds : gset string, {[TSV_PATH]} ∪ ({[TSV_PATH]} ∪ ds) = {[TSV_PATH]} ∪ ds)
    as Hun by (intros ds; apply set_eq; intros x;
               rewrite !elem_of_union; tauto).
  listing_unfold.
  destruct (remote E _) as [msg|st [msg|c d]] eqn:Hr; cbn_paths;
    rewrite ?Hr; cbn_paths; try done.
  destruct (st =? 200)%Z eqn:H200, output, (st =? 404)%Z eqn:H404,
    d as [| |[rows|]];
    cbn_paths; rewrite ?Hr; cbn_paths; rewrite ?H200, ?H404; cbn_paths;
    try done;
    try (split; [done|]; split; [|done];
         by rewrite ?insert_insert_eq);
    destruct (bool_decide (TSV_PATH ∈ dirs w)) eqn:Hd; cbn_paths;
    rewrite ?Hr; cbn_paths; rewrite ?H200, ?H404; cbn_paths;
    repeat (first [rewrite Hd | rewrite dir_created]; cbn_paths);
    (split; [done|]); (split; [|by rewrite ?Hun]).
  all: try done.
  all: repeat first
         [ rewrite insert_insert_eq
         | rewrite (insert_insert_ne _ (path_join TSV_PATH _) ("documents_" +:+ _))
             by (intros Heq; symmetry in Heq;
                 by apply (dump_is_not_listing _ _) in Heq) ];
       try done.
Qed.

(** ** The script *)

Lemma init_none_disk (E : environ) (w : world) :
  files (init E None w).2 = files w ∧ dirs (init E None w).2 = dirs w ∧
  run w (init E None w).2 [].
Proof.
  unfold init. destruct (truthy _); cbn.
  - split; [done|]. split; [done|]. apply run_refl.
  - split; [done|]. split; [done|]. log_norm. repeat split; repeat constructor.
Qed.

(** A fetch of the script raises exactly when its reply has no outcome. *)
Lemma get_doc_json_raises (E : environ) (self : Edinet) (date : string) (w : world) :
  listing_outcome_of (remote E (listing_url self date)) = None →
  ∃ e, (get_doc_json E self (Some date) false w).1 = Raise e.
Proof.
  unfold listing_outcome_of. listing_cases E; eauto.
  rewrite andb_false_r.
  destruct (st =? 404)%Z; [done|].
  destruct d as [| |[[|row rows]|]]; cbn_paths; eauto; done.
Qed.

Lemma main_loop_frame (E : environ) (self : Edinet) (fuel : nat) :
  ∀ (start_date end_date : Z) (df : table) (w : world),
    files (main_loop fuel E self start_date end_date df w).2 !! "document_list.tsv"
    = files w !! "document_list.tsv".
Proof.
  induction fuel as [|fuel IH]; intros start_date end_date df w; cbn [main_loop];
    [done|].
  destruct (start_date <=? end_date)%Z; [|done]. unfold bind.
  pose proof (get_doc_json_keeps_combined_file E self (strftime start_date) w)
    as Hframe.
  destruct (get_doc_json E self (Some (strftime start_date)) false w)
    as [[v|e] w1]; cbn [fst snd] in *.
  - by rewrite IH.
  - done.
Qed.

Lemma main_loop_abort (E : environ) (self : Edinet) (n : nat) :
  ∀ (start_date failing end_date : Z) (fuel : nat) (df : table) (w : world)
    (outs : list listing_outcome),
    Z.to_nat (failing - start_date) = n →
    (start_date ≤ failing ≤ end_date)%Z →
    n < fuel →
    Forall2 (fun d o =>
               listing_outcome_of (remote E (listing_url self (strftime d))) = Some o)
            (date_range start_date (failing - 1)) outs →
    listing_outcome_of (remote E (listing_url self (strftime failing))) = None →
    let r := main_loop fuel E self start_date end_date df w in
    (∃ e, r.1 = Raise e) ∧
    run w r.2 (map (fun d => listing_url self (strftime d))
                   (date_range start_date failing)).
Proof.
  unfold date_range.
  induction n as [|n IH];
    intros start_date failing end_date fuel df w outs Hn Hrange Hfuel Houts Hfail;
    (destruct fuel as [|fuel]; [lia|]); cbn [main_loop];
    (destruct (Z.leb_spec start_date end_date) as [_|]; [|lia]).
  - assert (failing = start_date) as -> by lia.
    replace (start_date - start_date + 1)%Z with 1%Z by lia.
    destruct (get_doc_json_raises E self (strftime start_date) w Hfail) as [e He].
    pose proof (get_doc_json_run E self (Some (strftime start_date)) false w) as Hrun.
    unfold bind.
    destruct (get_doc_json E self (Some (strftime start_date)) false w) as [res w1].
    cbn [fst snd default] in *. subst res. cbn [fst snd]. eauto.
  - rewrite seqZ_cons in Houts by lia.
    rewrite seqZ_cons by lia.
    replace (Z.pred (failing - 1 - start_date + 1))
      with (failing - 1 - Z.succ start_date + 1)%Z in * by lia.
    replace (Z.pred (failing - start_date + 1))
      with (failing - Z.succ start_date + 1)%Z in * by lia.
    apply Forall2_cons_inv_l in Houts as (o & outs' & Ho & Houts & ->).
    destruct (get_doc_json_accumulates E self (strftime start_date) o df w Ho)
      as (v & Hv & _).
    pose proof (get_doc_json_run E self (Some (strftime start_date)) false w) as Hrun.
    unfold bind.
    destruct (get_doc_json E self (Some (strftime start_date)) false w) as [res w1].
    cbn [fst snd default] in *. subst res.
    replace (start_date + 1)%Z with (Z.succ start_date) by lia.
    destruct (IH (Z.succ start_date) failing end_date fuel (accumulate df v) w1 outs')
      as [Hres Hrun']; [lia | lia | lia | done | done |].
    split; [done|]. cbn [map]. apply (run_trans _ _ _ [_] _ Hrun Hrun').
Qed.

(** X14: When the fetch of some day of the run raises (no connection, an
    unreadable body, or a body that is no JSON object) after the earlier
    days completed, the script ends with that exception: the days after it
    are never requested and [document_list.tsv] is not written. *)
Theorem main_stops_at_first_failure (E : environ) (fuel : nat) (w w1 : world)
    (self : Edinet) (failing : Z) (outs : list listing_outcome) :
  init E None w = (Ok self, w1) →
  (today E - 180 ≤ failing ≤ today E)%Z →
  Z.to_nat (failing - (today E - 180)) < fuel →
  Forall2 (fun d o =>
             listing_outcome_of (remote E (listing_url self (strftime d))) = Some o)
          (date_range (today E - 180) (failing - 1)) outs →
  listing_outcome_of (remote E (listing_url self (strftime failing))) = None →
  let r := main fuel E w in
  (∃ e, r.1 = Raise e) ∧
  requests_issued (since w1 r.2)
  = map (fun d => listing_url self (strftime d)) (date_range (today E - 180) failing) ∧
  files r.2 !! "document_list.tsv" = files w !! "document_list.tsv".
Proof.
  intros Hinit Hrange Hfuel Houts Hfail r. subst r.
  destruct (init_none_disk E w) as (Hfiles & _). rewrite Hinit in Hfiles.
  cbn [snd] in Hfiles.
  unfold main, bind. rewrite Hinit.
  destruct (main_loop_abort E self _ (today E - 180) failing (today E) fuel [] w1
              outs eq_refl Hrange Hfuel Houts Hfail) as [[e He] (_ & _ & Hreq)].
  pose proof (main_loop_frame E self fuel (today E - 180) (today E) [] w1) as Hfr.
  destruct (main_loop fuel E self (today E - 180) (today E) [] w1) as [res w2].
  cbn [fst snd] in *. subst res. cbn [fst snd].
  split; [eauto|]. split; [done|]. by rewrite Hfr, Hfiles.
Qed.

Lemma main_stops_at_first_failure_witness :
  (∃ e, (main 1 E0 w0).1 = Raise e) ∧
  requests_issued (since (emit EvWidget w0) (main 1 E0 w0).2)
  = map (fun d => listing_url (MkEdinet KeyUnset None) (strftime d))
        (date_range (today E0 - 180) (today E0 - 180)).
Proof.
  destruct (main_stops_at_first_failure E0 1 w0 (emit EvWidget w0)
              (MkEdinet KeyUnset None) (today E0 - 180) [])
    as (Hraise & Hreq & _).
  - reflexivity.
  - cbn [today E0]. lia.
  - cbn [today E0]. lia.
  - constructor.
  - reflexivity.
  - split; [exact Hraise | exact Hreq].
Defined.

(** A run of the script against a service that knows nothing: 181 days of
    404, an empty combined table written to [document_list.tsv]. *)
Lemma main_writes_combined_table_witness :
  files (main 182 E404 w0).2 !! "document_list.tsv" = Some (FTsv []).
Proof.
  destruct (main_writes_combined_table E404 182 w0 (emit EvWidget w0)
              (MkEdinet KeyUnset None)
              (map (fun _ => NotFound) (date_range (today E404 - 180) (today E404))))
    as (_ & _ & H).
  - lia.
  - reflexivity.
  - apply Forall2_fmap_r, Forall_Forall2_diag, Forall_forall.
    intros d _. reflexivity.
  - exact H.
Defined.



(** ** The two listing workers side by side *)



(** ** The key file *)

(** X18: With EDINET_API_KEY absent and a key path given: a key file with the
    entry yields that key and one printed line that shows a star per
    character of it; a key file without the entry makes the constructor
    raise [TypeError]; a path that names no file falls back to the widget,
    with the key left at its initial [{}]. *)
Theorem init_reads_key_file (E : environ) (p : string) (w : world) :
  truthy (getenv E "EDINET_API_KEY") = false →
  (∀ k, files w !! p = Some (FKeyJson (Some k)) →
     init E (Some p) w
     = (Ok (MkEdinet (KeyStr k) (Some p)),
        emit (EvOut ("load subscription key: " +:+ stars (String.length k)))
             (emit (EvOpenRead p) w))) ∧
  (files w !! p = Some (FKeyJson None) →
     (init E (Some p) w).1 = Raise TypeError) ∧
  (files w !! p = None →
     init E (Some p) w = (Ok (MkEdinet KeyUnset (Some p)), emit EvWidget w)).
Proof.
  intros Ht. unfold init. rewrite Ht.
  unfold usable_key_file, isfile, load_key, key_len, print, effect, bind, ret, raise.
  cbn [default]. unfold id.
  split; [|split].
  - intros k Hk.
    rewrite bool_decide_eq_true_2 by (rewrite Hk; eauto). by rewrite Hk.
  - intros Hk.
    rewrite bool_decide_eq_true_2 by (rewrite Hk; eauto). by rewrite Hk.
  - intros Hk.
    rewrite bool_decide_eq_false_2 by (rewrite Hk; by intros [? ?]). done.
Qed.

Lemma init_reads_key_file_witness :
  init E0 (Some "key.json") w_key
  = (Ok (MkEdinet (KeyStr "from-file") (Some "key.json")),
     emit (EvOut "load subscription key: *********")
          (emit (EvOpenRead "key.json") w_key)) ∧
  (init E0 (Some "key.json") w_nokey).1 = Raise TypeError.
Proof.
  split.
  - destruct (init_reads_key_file E0 "key.json" w_key eq_refl) as (H & _).
    apply (H "from-file"). reflexivity.
  - destruct (init_reads_key_file E0 "key.json" w_nokey eq_refl) as (_ & H & _).
    apply H. reflexivity.
Defined.
